(** * rate.py: the rating pipeline of hqr_score_app

    A shallow embedding of [src/rate.py] and the properties of its five
    functions: [get_rating_criteria], [get_unrated_responses],
    [get_rating_from_ai], [update_notion_page] and [main].

    Modelling choices.
    - Python values that travel through the script (decoded JSON, Notion
      responses) are the inductive type [pyval]; the dynamic checks the
      interpreter performs on them (subscripting, [.get], [in], iteration,
      [str.join]) are written out and raise the exception Python raises.
    - A Python string is the byte string of its UTF-8 encoding; a
      character is a byte followed by its continuation bytes. Whitespace is
      Python's, over all of Unicode. Letter case is written out for ASCII
      characters; for the other characters [str.title] reads the tables of
      Python's Unicode database, which are a parameter ([case_tables]).
    - The two remote services, [json.loads], f-string formatting and the
      case tables are parameters: a [services] record, whose remote calls
      are state-passing functions over an arbitrary world [W].
    - A computation returns, with its outcome, the trace of the remote calls
      it issued and whether each one raised, so that "which calls were made,
      in which order" is a property of the result.
    - Console output ([print]) is not modelled. *)

From Stdlib Require Import ZArith Ascii String.
From stdpp Require Import base strings list gmap.

Set Warnings "-register-all".

Local Open Scope string_scope.
Local Open Scope list_scope.
Local Open Scope Z_scope.

(** ** Python strings *)

(** The part of Python's Unicode database that [str.title] reads for a
    character outside ASCII: whether it is cased, its title-case mapping,
    and its lower-case mapping, which may depend on the characters before
    and after it (the final sigma). A mapping may give several
    characters. *)
Record case_tables : Type := CaseTables {
  is_cased_wide : string → bool;
  to_title_wide : string → string;
  to_lower_wide : list string → string → list string → string;
}.

Module PyStr.

Definition is_ascii (c : ascii) : bool := (nat_of_ascii c <? 128)%nat.

(** A continuation byte of UTF-8: [10xxxxxx]. *)
Definition is_continuation (c : ascii) : bool :=
  let n := nat_of_ascii c in (128 <=? n)%nat && (n <? 192)%nat.

(** The characters of a string, each as a one-character string: a byte
    with the continuation bytes that follow it. *)
Fixpoint chars (s : string) : list string :=
  match s with
  | EmptyString => []
  | String c s' =>
      match chars s' with
      | String d k :: rest =>
          if is_continuation d then String c (String d k) :: rest
          else String c EmptyString :: String d k :: rest
      | rest => String c EmptyString :: rest
      end
  end.

(** The string made of the given characters. *)
Fixpoint concat (parts : list string) : string :=
  match parts with
  | [] => EmptyString
  | p :: rest => p +:+ concat rest
  end.

(** A character as the list of its bytes. *)
Definition bytes (ch : string) : list nat := nat_of_ascii <$> list_ascii_of_string ch.

(** [str.isspace] on one character, as [str.strip] reads it: U+0009 to
    U+000D, U+001C to U+0020, U+0085, U+00A0, U+1680, U+2000 to U+200A,
    U+2028, U+2029, U+202F, U+205F and U+3000, each by its encoding. *)
Definition is_space (ch : string) : bool :=
  match bytes ch with
  | [a] => ((9 <=? a) && (a <=? 13) || (28 <=? a) && (a <=? 32))%nat
  | [a; b] => ((a =? 194) && ((b =? 133) || (b =? 160)))%nat
  | [a; b; c] =>
      ((a =? 225) && (b =? 154) && (c =? 128) ||
       (a =? 226) && (b =? 128) &&
         ((128 <=? c) && (c <=? 138) || (c =? 168) || (c =? 169) || (c =? 175)) ||
       (a =? 226) && (b =? 129) && (c =? 159) ||
       (a =? 227) && (b =? 128) && (c =? 128))%nat
  | _ => false
  end.

Definition is_upper (c : ascii) : bool :=
  let n := nat_of_ascii c in (65 <=? n)%nat && (n <=? 90)%nat.

Definition is_lower (c : ascii) : bool :=
  let n := nat_of_ascii c in (97 <=? n)%nat && (n <=? 122)%nat.

Definition is_cased (c : ascii) : bool := is_upper c || is_lower c.

Definition to_upper (c : ascii) : ascii :=
  if is_lower c then ascii_of_nat (nat_of_ascii c - 32) else c.

Definition to_lower (c : ascii) : ascii :=
  if is_upper c then ascii_of_nat (nat_of_ascii c + 32) else c.

(** [s.replace(old, new)] for single ASCII characters. *)
Fixpoint replace (old new : ascii) (s : string) : string :=
  match s with
  | EmptyString => EmptyString
  | String c s' => String (if Ascii.eqb c old then new else c) (replace old new s')
  end.

(** The ASCII character a one-character string holds, if it holds one. *)
Definition ascii_of_char (ch : string) : option ascii :=
  match ch with
  | String c EmptyString => if is_ascii c then Some c else None
  | _ => None
  end.

Definition char_is_cased (t : case_tables) (ch : string) : bool :=
  match ascii_of_char ch with
  | Some c => is_cased c
  | None => is_cased_wide t ch
  end.

Definition char_title (t : case_tables) (ch : string) : string :=
  match ascii_of_char ch with
  | Some c => String (to_upper c) EmptyString
  | None => to_title_wide t ch
  end.

Definition char_lower (t : case_tables) (before : list string) (ch : string)
    (after : list string) : string :=
  match ascii_of_char ch with
  | Some c => String (to_lower c) EmptyString
  | None => to_lower_wide t before ch after
  end.

(** The loop of [str.title]: a character is mapped to lower case when the
    character before it is cased, and to title case otherwise. *)
Fixpoint title_chars (t : case_tables) (previous_is_cased : bool)
    (before chs : list string) : string :=
  match chs with
  | [] => EmptyString
  | ch :: after =>
      (if previous_is_cased then char_lower t before ch after else char_title t ch)
      +:+ title_chars t (char_is_cased t ch) (before ++ [ch]) after
  end.

(** [s.title()] *)
Definition title (t : case_tables) (s : string) : string :=
  title_chars t false [] (chars s).

(** [s.endswith(suffix)]: some tail of [s] is [suffix]. *)
Fixpoint endswith (s suffix : string) : bool :=
  if String.eqb s suffix then true
  else match s with
       | EmptyString => false
       | String _ s' => endswith s' suffix
       end.

(** [needle in s] for strings. *)
Fixpoint contains (s needle : string) : bool :=
  if String.prefix needle s then true
  else match s with
       | EmptyString => false
       | String _ s' => contains s' needle
       end.

(** The characters left when the leading whitespace is dropped. *)
Fixpoint drop_spaces (chs : list string) : list string :=
  match chs with
  | [] => []
  | ch :: rest => if is_space ch then drop_spaces rest else chs
  end.

(** [s.strip()]: leading and trailing whitespace dropped. *)
Definition strip (s : string) : string :=
  concat (rev (drop_spaces (rev (drop_spaces (chars s))))).

(** [sep.join(parts)] *)
Fixpoint join (sep : string) (parts : list string) : string :=
  match parts with
  | [] => ""
  | [p] => p
  | p :: rest => p +:+ sep +:+ join sep rest
  end.

(** A string with no character other than whitespace. *)
Definition all_space (s : string) : bool := forallb is_space (chars s).

End PyStr.

(** ** Python values and the interpreter's dynamic checks *)

(** The exceptions the script can meet. All of them derive from Python's
    [Exception]; [KeyError] and [IndexError] are the two that [main] names.
    [ValueError] stands for [json.JSONDecodeError], its subclass, and
    [APIError] for every error raised by a remote client. *)
Inductive exn : Type :=
| KeyError
| IndexError
| TypeError
| AttributeError
| ValueError
| APIError (message : string).

(** The result of evaluating an expression: a value or a raised exception. *)
Inductive outcome (A : Type) : Type :=
| Ok (a : A)
| Raise (e : exn).
Arguments Ok {A} a.
Arguments Raise {A} e.

Definition outcome_bind {A B : Type} (f : A → outcome B) (o : outcome A) : outcome B :=
  match o with
  | Ok a => f a
  | Raise e => Raise e
  end.

#[global] Instance outcome_ret : MRet outcome := λ A a, Ok a.
#[global] Instance outcome_mbind : MBind outcome := λ A B f o, outcome_bind f o.
#[global] Instance outcome_fmap : FMap outcome := λ A B f o, outcome_bind (λ a, Ok (f a)) o.

(** A Python value: [None], a [bool], an [int], a [float] (kept as its
    IEEE-754 binary64 bit pattern, the script never computes with it), a
    [str], a [list], or a [dict] with string keys in insertion order. *)
Inductive pyval : Type :=
| PNone
| PBool (b : bool)
| PInt (n : Z)
| PFloat (bits : Z)
| PStr (s : string)
| PList (items : list pyval)
| PDict (entries : list (string * pyval)).

Module Py.

(** Truth value of an object, as [if x:] and [not x] read it. *)
Definition truthy (v : pyval) : bool :=
  match v with
  | PNone => false
  | PBool b => b
  | PInt n => negb (n =? 0)
  | PFloat bits => negb (bits mod 2 ^ 63 =? 0)
  | PStr s => negb (String.eqb s "")
  | PList items => match items with [] => false | _ => true end
  | PDict entries => match entries with [] => false | _ => true end
  end.

(** Lookup of a string key in the entries of a [dict]. *)
Fixpoint dict_get (k : string) (entries : list (string * pyval)) : option pyval :=
  match entries with
  | [] => None
  | (k', v) :: rest => if String.eqb k' k then Some v else dict_get k rest
  end.

(** An object usable as a sequence index: an [int], or a [bool] (a subclass
    of [int]). *)
Definition as_index (key : pyval) : option Z :=
  match key with
  | PInt n => Some n
  | PBool b => Some (if b then 1 else 0)
  | _ => None
  end.

(** [seq[i]] on a sequence of [len] elements: negative indices count from
    the end. *)
Definition seq_index {A : Type} (items : list A) (i : Z) : outcome A :=
  let len := Z.of_nat (length items) in
  let j := if i <? 0 then i + len else i in
  if (j <? 0) || (len <=? j) then Raise IndexError
  else match items !! Z.to_nat j with
       | Some x => Ok x
       | None => Raise IndexError
       end.

(** [obj[key]] *)
Definition getitem (obj key : pyval) : outcome pyval :=
  match obj with
  | PDict entries =>
      match key with
      | PStr k => match dict_get k entries with
                  | Some v => Ok v
                  | None => Raise KeyError
                  end
      | PList _ | PDict _ => Raise TypeError
      | _ => Raise KeyError
      end
  | PList items =>
      match as_index key with
      | Some i => seq_index items i
      | None => Raise TypeError
      end
  | PStr s =>
      match as_index key with
      | Some i => PStr <$> seq_index (PyStr.chars s) i
      | None => Raise TypeError
      end
  | _ => Raise TypeError
  end.

(** [obj.get(key, default)]: only a [dict] has the method. *)
Definition get (obj key default : pyval) : outcome pyval :=
  match obj with
  | PDict entries =>
      match key with
      | PStr k => Ok (match dict_get k entries with Some v => v | None => default end)
      | PList _ | PDict _ => Raise TypeError
      | _ => Ok default
      end
  | _ => Raise AttributeError
  end.

Definition is_str (s : string) (v : pyval) : bool :=
  match v with
  | PStr s' => String.eqb s' s
  | _ => false
  end.

(** [needle in obj] for a string [needle]. *)
Definition contains (needle : string) (obj : pyval) : outcome bool :=
  match obj with
  | PDict entries => Ok (bool_decide (is_Some (dict_get needle entries)))
  | PList items => Ok (existsb (is_str needle) items)
  | PStr s => Ok (PyStr.contains s needle)
  | _ => Raise TypeError
  end.

(** The elements [for x in obj] visits. *)
Definition iter (obj : pyval) : outcome (list pyval) :=
  match obj with
  | PList items => Ok items
  | PStr s => Ok (PStr <$> PyStr.chars s)
  | PDict entries => Ok ((λ kv, PStr kv.1) <$> entries)
  | _ => Raise TypeError
  end.

(** [len(obj)] *)
Definition len (obj : pyval) : outcome Z :=
  match obj with
  | PList items => Ok (Z.of_nat (length items))
  | PStr s => Ok (Z.of_nat (length (PyStr.chars s)))
  | PDict entries => Ok (Z.of_nat (length entries))
  | _ => Raise TypeError
  end.

(** The items handed to [str.join] must all be strings. *)
Fixpoint strings_of (items : list pyval) : outcome (list string) :=
  match items with
  | [] => Ok []
  | PStr s :: rest => cons s <$> strings_of rest
  | _ :: _ => Raise TypeError
  end.

(** [sep.join(items)] *)
Definition join (sep : string) (items : list pyval) : outcome string :=
  PyStr.join sep <$> strings_of items.

(** [isinstance(v, (int, float))]; [bool] is a subclass of [int]. *)
Definition isinstance_int_float (v : pyval) : bool :=
  match v with
  | PInt _ | PFloat _ | PBool _ => true
  | _ => false
  end.

End Py.

(** ** The remote services *)

(** The part of an OpenAI chat completion the script reads:
    [response.choices[0].message.content]. *)
Record chat_message : Type := ChatMessage { content : option string }.
Record chat_choice : Type := ChatChoice { message : chat_message }.
Record chat_completion : Type := ChatCompletion { choices : list chat_choice }.

(** One remote call, with the arguments the script passes. *)
Inductive call : Type :=
| BlocksChildrenList (block_id : string)
| DatabasesQuery (database_id : string) (filter : pyval)
| PagesUpdate (page_id : pyval) (properties : gmap string pyval)
| ChatCompletionsCreate (model : string) (response_format : pyval)
    (messages : list (string * string)).

(** The Notion client, the OpenAI client and what the script relies on of
    Python's library, over a world [W] that the remote calls may change. *)
Record services (W : Type) : Type := Services {
  blocks_children_list : string → W → outcome pyval * W;
  databases_query : string → pyval → W → outcome pyval * W;
  pages_update : pyval → gmap string pyval → W → outcome () * W;
  chat_completions_create :
    string → pyval → list (string * string) → W → outcome chat_completion * W;
  (** [json.loads] *)
  json_loads : string → outcome pyval;
  (** the text an f-string puts in place of [{value}] *)
  format : pyval → string;
  (** the case tables behind [str.title] *)
  unicode : case_tables;
}.
Arguments blocks_children_list {W} _ _ _.
Arguments databases_query {W} _ _ _ _.
Arguments pages_update {W} _ _ _ _.
Arguments chat_completions_create {W} _ _ _ _ _.
Arguments json_loads {W} _ _.
Arguments format {W} _ _.
Arguments unicode {W} _.

(** A remote call as it appears in the trace of a run: the request, and the
    exception it raised, if any. *)
Record event : Type := Event { request : call; failure : option exn }.

Definition failure_of {A : Type} (o : outcome A) : option exn :=
  match o with
  | Ok _ => None
  | Raise e => Some e
  end.

(** A computation that may call the services and may raise: from a world it
    gives its outcome, the world it leaves, and the remote calls it issued,
    in order. *)
Definition prog (W A : Type) : Type := W → outcome A * W * list event.

Definition prog_ret {W A : Type} (a : A) : prog W A := λ w, (Ok a, w, []).

Definition prog_bind {W A B : Type} (f : A → prog W B) (m : prog W A) : prog W B :=
  λ w, match m w with
       | (Ok a, w1, t1) => let '(r, w2, t2) := f a w1 in (r, w2, t1 ++ t2)
       | (Raise e, w1, t1) => (Raise e, w1, t1)
       end.

#[global] Instance prog_mret {W} : MRet (prog W) := λ A, prog_ret.
#[global] Instance prog_mbind {W} : MBind (prog W) := λ A B, prog_bind.

(** A pure evaluation inside a computation. *)
Definition lift {W A : Type} (o : outcome A) : prog W A := λ w, (o, w, []).

(** [try: body / except <catches> as e: handler e] *)
Definition try_except {W A : Type} (body : prog W A) (catches : exn → bool)
    (handler : exn → prog W A) : prog W A :=
  λ w, match body w with
       | (Raise e, w1, t1) =>
           if catches e
           then let '(r, w2, t2) := handler e w1 in (r, w2, t1 ++ t2)
           else (Raise e, w1, t1)
       | done => done
       end.

(** [except Exception]: every exception of the model. *)
Definition any_Exception (e : exn) : bool := true.

(** [except (KeyError, IndexError)] *)
Definition KeyError_or_IndexError (e : exn) : bool :=
  match e with
  | KeyError | IndexError => true
  | _ => false
  end.

(** [for x in items: body x] *)
Fixpoint for_each {W A : Type} (items : list A) (body : A → prog W ()) : prog W () :=
  match items with
  | [] => mret ()
  | x :: rest => _ ← body x; for_each rest body
  end.

(** ** The script *)

Definition nl : string := String "010" EmptyString.
Definition dq : string := String (ascii_of_nat 34) EmptyString.

(** The [filter] argument of the database query. *)
Definition status_filter : pyval :=
  PDict [("property", PStr "Status");
         ("select", PDict [("equals", PStr "To be Rated")])].

(** [{"select": {"name": name}}] *)
Definition select (name : string) : pyval :=
  PDict [("select", PDict [("name", PStr name)])].

(** [{"rich_text": [{"text": {"content": text}}]}] *)
Definition rich_text (text : pyval) : pyval :=
  PDict [("rich_text", PList [PDict [("text", PDict [("content", text)])]])].

(** [{"number": value}] *)
Definition number (value : pyval) : pyval := PDict [("number", value)].

(** [{"Status": {"select": {"name": "Error"}}}] *)
Definition error_properties : gmap string pyval := {[ "Status" := select "Error" ]}.

(** The system message of the chat request. *)
Definition system_message : string :=
  "You are an AI Quality Analyst that only outputs valid JSON.".

Section Script.

Context {W : Type}.
Variable svc : services W.
Variable RESPONSES_DB_ID : string.
Variable STANDARDS_PAGE_ID : string.

(** *** Remote calls, each recorded in the trace *)

Definition record_call {A : Type} (c : call) (run : W → outcome A * W) : prog W A :=
  λ w, let '(r, w') := run w in (r, w', [Event c (failure_of r)]).

Definition notion_blocks_children_list (block_id : string) : prog W pyval :=
  record_call (BlocksChildrenList block_id) (blocks_children_list svc block_id).

Definition notion_databases_query (database_id : string) (filter : pyval) : prog W pyval :=
  record_call (DatabasesQuery database_id filter) (databases_query svc database_id filter).

Definition notion_pages_update (page_id : pyval) (properties : gmap string pyval) : prog W () :=
  record_call (PagesUpdate page_id properties) (pages_update svc page_id properties).

Definition openai_chat_completions_create (model : string) (response_format : pyval)
    (messages : list (string * string)) : prog W chat_completion :=
  record_call (ChatCompletionsCreate model response_format messages)
              (chat_completions_create svc model response_format messages).

(** *** get_rating_criteria *)

(** The inner loop: [criteria_text.append(text_element['plain_text'])]. *)
Fixpoint append_runs (criteria_text : list pyval) (runs : list pyval) : outcome (list pyval) :=
  match runs with
  | [] => Ok criteria_text
  | text_element :: rest =>
      t ← Py.getitem text_element (PStr "plain_text");
      append_runs (criteria_text ++ [t]) rest
  end.

(** One turn of the outer loop. [block.get] exists on a [dict] only, and is
    looked up before its arguments are evaluated. *)
Definition visit_block (criteria_text : list pyval) (block : pyval) : outcome (list pyval) :=
  match block with
  | PDict _ =>
      ty ← Py.getitem block (PStr "type");
      sub ← Py.get block ty (PDict []);
      has_text ← Py.contains "rich_text" sub;
      if has_text : bool then
        ty' ← Py.getitem block (PStr "type");
        sub' ← Py.getitem block ty';
        rt ← Py.getitem sub' (PStr "rich_text");
        runs ← Py.iter rt;
        append_runs criteria_text runs
      else Ok criteria_text
  | _ => Raise AttributeError
  end.

Fixpoint visit_blocks (criteria_text : list pyval) (blocks : list pyval) : outcome (list pyval) :=
  match blocks with
  | [] => Ok criteria_text
  | block :: rest =>
      criteria_text' ← visit_block criteria_text block;
      visit_blocks criteria_text' rest
  end.

(** The [try] block after the fetch: from the response to the criteria. *)
Definition criteria_of (response : pyval) : outcome pyval :=
  blocks ← Py.get response (PStr "results") (PList []);
  block_list ← Py.iter blocks;
  criteria_text ← visit_blocks [] block_list;
  full_criteria ← Py.join nl criteria_text;
  if negb (Py.truthy (PStr (PyStr.strip full_criteria))) then Ok PNone
  else Ok (PStr full_criteria).

Definition get_rating_criteria : prog W pyval :=
  try_except
    (response ← notion_blocks_children_list STANDARDS_PAGE_ID;
     lift (criteria_of response))
    any_Exception
    (λ _, mret PNone).

(** *** get_unrated_responses *)

(** The [try] block after the query. The f-string of the [print] evaluates
    [len(response['results'])]; the value returned is
    [response.get("results", [])]. *)
Definition results_of (response : pyval) : outcome pyval :=
  results ← Py.getitem response (PStr "results");
  _ ← Py.len results;
  Py.get response (PStr "results") (PList []).

Definition get_unrated_responses : prog W pyval :=
  try_except
    (response ← notion_databases_query RESPONSES_DB_ID status_filter;
     lift (results_of response))
    any_Exception
    (λ _, mret (PList [])).

(** *** get_rating_from_ai *)

Definition master_prompt (criteria user_prompt chatbot_response : pyval) : string :=
  nl +:+
  "You are an expert AI Quality Analyst. Your task is to evaluate a chatbot's response based on a set of predefined criteria. Provide your rating in a single, clean JSON object. Do not add any commentary, greetings, or explanations outside of the JSON structure." +:+ nl +:+
  nl +:+
  "# RATING CRITERIA" +:+ nl +:+
  format svc criteria +:+ nl +:+
  nl +:+
  "# CHATBOT INTERACTION TO EVALUATE" +:+ nl +:+
  "User Prompt: " +:+ dq +:+ format svc user_prompt +:+ dq +:+ nl +:+
  "Chatbot Response: " +:+ dq +:+ format svc chatbot_response +:+ dq +:+ nl +:+
  nl +:+
  "# YOUR TASK" +:+ nl +:+
  "Analyze the " +:+ dq +:+ "Chatbot Response" +:+ dq +:+ " based on the " +:+ dq +:+
  "User Prompt" +:+ dq +:+ " and the " +:+ dq +:+ "RATING CRITERIA" +:+ dq +:+
  ". Provide your evaluation as a single JSON object with keys for each score (e.g., " +:+
  dq +:+ "clarity_score" +:+ dq +:+ ", " +:+ dq +:+ "accuracy_score" +:+ dq +:+
  ") and a final key " +:+ dq +:+ "evaluation_notes" +:+ dq +:+
  " which contains a brief justification for your ratings. The score keys in your JSON output must be in snake_case (e.g., 'clarity_score')." +:+ nl.

(** The request sent for one record. *)
Definition rating_request (criteria user_prompt chatbot_response : pyval) : call :=
  ChatCompletionsCreate "gpt-4-turbo" (PDict [("type", PStr "json_object")])
    [("system", system_message);
     ("user", master_prompt criteria user_prompt chatbot_response)].

(** [json.loads(response.choices[0].message.content)]; the content of a
    message may be [None], which [json.loads] refuses. *)
Definition rating_of (response : chat_completion) : outcome pyval :=
  choice ← Py.seq_index (choices response) 0;
  match content (message choice) with
  | Some text => json_loads svc text
  | None => Raise TypeError
  end.

Definition get_rating_from_ai (criteria user_prompt chatbot_response : pyval)
    : prog W pyval :=
  try_except
    (response ← openai_chat_completions_create "gpt-4-turbo"
                  (PDict [("type", PStr "json_object")])
                  [("system", system_message);
                   ("user", master_prompt criteria user_prompt chatbot_response)];
     lift (rating_of response))
    any_Exception
    (λ _, mret PNone).

(** *** update_notion_page *)

(** [rating_data.items()] *)
Definition items (rating_data : pyval) : outcome (list (string * pyval)) :=
  match rating_data with
  | PDict entries => Ok entries
  | _ => Raise AttributeError
  end.

(** The destination column of a key: [key.replace('_', ' ').title()], with
    the case tables of the services for the characters outside ASCII. *)
Definition prop_name (key : string) : string :=
  PyStr.title (unicode svc) (PyStr.replace "_" " " key).

(** The test of the loop body. *)
Definition is_score (key : string) (value : pyval) : bool :=
  PyStr.endswith key "_score" && Py.isinstance_int_float value.

(** One turn of the loop over [rating_data.items()]. *)
Definition add_score (properties_to_update : gmap string pyval) (item : string * pyval)
    : gmap string pyval :=
  if is_score item.1 item.2
  then <[ prop_name item.1 := number item.2 ]> properties_to_update
  else properties_to_update.

(** The two entries of the dict literal. *)
Definition fixed_properties (notes : pyval) : gmap string pyval :=
  <[ "Status" := select "Rated" ]> {[ "Evaluation Notes" := rich_text notes ]}.

(** [properties_to_update] as it stands when the update is sent. *)
Definition properties_to_update (rating_data : pyval) : outcome (gmap string pyval) :=
  notes ← Py.get rating_data (PStr "evaluation_notes") (PStr "N/A");
  entries ← items rating_data;
  Ok (foldl add_score (fixed_properties notes) entries).

Definition update_notion_page (page_id rating_data : pyval) : prog W () :=
  properties ← lift (properties_to_update rating_data);
  try_except (notion_pages_update page_id properties)
             any_Exception
             (λ _, notion_pages_update page_id error_properties).

(** *** main *)

(** [page["properties"][field][collection][0]["plain_text"]] *)
Definition plain_text_of (page : pyval) (field collection : string) : outcome pyval :=
  properties ← Py.getitem page (PStr "properties");
  fld ← Py.getitem properties (PStr field);
  runs ← Py.getitem fld (PStr collection);
  first ← Py.getitem runs (PInt 0);
  Py.getitem first (PStr "plain_text").

(** The body of the [try] block of the loop. *)
Definition rate_page (criteria page page_id : pyval) : prog W () :=
  user_prompt ← lift (plain_text_of page "Prompt" "title");
  ai_response ← lift (plain_text_of page "AI Response" "rich_text");
  rating ← get_rating_from_ai criteria user_prompt ai_response;
  if Py.truthy rating then update_notion_page page_id rating
  else notion_pages_update page_id error_properties.

(** One turn of the loop over the fetched records. *)
Definition process_page (criteria page : pyval) : prog W () :=
  page_id ← lift (Py.getitem page (PStr "id"));
  try_except (rate_page criteria page page_id)
             KeyError_or_IndexError
             (λ _, notion_pages_update page_id error_properties).

Definition main : prog W () :=
  criteria ← get_rating_criteria;
  if negb (Py.truthy criteria) then mret ()
  else
    responses_to_rate ← get_unrated_responses;
    if negb (Py.truthy responses_to_rate) then mret ()
    else
      pages ← lift (Py.iter responses_to_rate);
      for_each pages (process_page criteria).

End Script.

(** ** The data model of the specification, read off raw values *)

(** A text run and its plain-text content. *)
Inductive run_text : pyval → string → Prop :=
| RunText entries s :
    Py.dict_get "plain_text" entries = Some (PStr s) →
    run_text (PDict entries) s.

(** A content block and the plain texts of its runs, in order: a block
    whose type-keyed sub-object holds a rich-text collection carries the
    texts of that collection; a block without one carries none. *)
Inductive block_text : pyval → list string → Prop :=
| BlockTextual entries ty sub runs texts :
    Py.dict_get "type" entries = Some (PStr ty) →
    Py.dict_get ty entries = Some (PDict sub) →
    Py.dict_get "rich_text" sub = Some (PList runs) →
    Forall2 run_text runs texts →
    block_text (PDict entries) texts
| BlockNoRichText entries ty sub :
    Py.dict_get "type" entries = Some (PStr ty) →
    Py.dict_get ty entries = Some (PDict sub) →
    Py.dict_get "rich_text" sub = None →
    block_text (PDict entries) []
| BlockNoSubObject entries ty :
    Py.dict_get "type" entries = Some (PStr ty) →
    Py.dict_get ty entries = None →
    block_text (PDict entries) [].

(** What the block-list fetch gave: an error, or a response whose
    [results] are blocks with the given texts (no block at all when the
    response has no [results]). *)
Inductive fetched_document : outcome pyval → option (list (list string)) → Prop :=
| FetchFailed e : fetched_document (Raise e) None
| FetchNoResults response :
    Py.dict_get "results" response = None →
    fetched_document (Ok (PDict response)) (Some [])
| FetchBlocks response blocks texts :
    Py.dict_get "results" response = Some (PList blocks) →
    Forall2 block_text blocks texts →
    fetched_document (Ok (PDict response)) (Some texts).

(** The string with the given bytes. *)
Definition of_bytes (l : list nat) : string :=
  string_of_list_ascii (ascii_of_nat <$> l).

(** The whitespace characters of Python, one by one, as encoded strings:
    U+0009 to U+000D, U+001C to U+001F, U+0020, U+0085, U+00A0, U+1680,
    U+2000 to U+200A, U+2028, U+2029, U+202F, U+205F, U+3000. *)
Definition whitespace_characters : list string :=
  of_bytes <$>
    [[9]; [10]; [11]; [12]; [13]; [28]; [29]; [30]; [31]; [32];
     [194; 133]; [194; 160]; [225; 154; 128];
     [226; 128; 128]; [226; 128; 129]; [226; 128; 130]; [226; 128; 131];
     [226; 128; 132]; [226; 128; 133]; [226; 128; 134]; [226; 128; 135];
     [226; 128; 136]; [226; 128; 137]; [226; 128; 138];
     [226; 128; 168]; [226; 128; 169]; [226; 128; 175];
     [226; 129; 159]; [227; 128; 128]]%nat.

(** A text that is empty or whitespace-only: each of its characters is one
    of the whitespace characters. *)
Definition blank (text : string) : Prop :=
  Forall (λ ch, ch ∈ whitespace_characters) (PyStr.chars text).

(** A JSON number, as opposed to a JSON boolean. *)
Definition is_number (v : pyval) : bool :=
  match v with
  | PInt _ | PFloat _ => true
  | _ => false
  end.



(** The calls that rate a record or write to the record store. *)
Definition is_rating_call (c : call) : bool :=
  match c with
  | ChatCompletionsCreate _ _ _ => true
  | _ => false
  end.

Definition is_write (c : call) : bool :=
  match c with
  | PagesUpdate _ _ => true
  | _ => false
  end.

(** A failed write of [Status = Error], whatever the record. *)
Definition failed_fallback (e : exn) (ev : event) : Prop :=
  ∃ page_id, ev = Event (PagesUpdate page_id error_properties) (Some e).


(** A trace whose last call is a failed write of [Status = Error]. *)
Definition ends_with_failed_fallback (e : exn) (trace : list event) : Prop :=
  ∃ before ev, trace = before ++ [ev] ∧ failed_fallback e ev.

(** ** A scripted world

    Replies are handed out in the order of the calls, whatever the call:
    the fake clients used to run the script on sample data. *)

Inductive reply : Type :=
| Reply (v : pyval)
| ReplyCompletion (c : chat_completion)
| ReplyDone
| ReplyError (e : exn).

Definition next_value (w : list reply) : outcome pyval * list reply :=
  match w with
  | Reply v :: w' => (Ok v, w')
  | ReplyError e :: w' => (Raise e, w')
  | _ :: w' => (Raise (APIError "unexpected reply"), w')
  | [] => (Raise (APIError "no reply"), [])
  end.

Definition next_completion (w : list reply) : outcome chat_completion * list reply :=
  match w with
  | ReplyCompletion c :: w' => (Ok c, w')
  | ReplyError e :: w' => (Raise e, w')
  | _ :: w' => (Raise (APIError "unexpected reply"), w')
  | [] => (Raise (APIError "no reply"), [])
  end.

Definition next_done (w : list reply) : outcome () * list reply :=
  match w with
  | ReplyDone :: w' => (Ok (), w')
  | ReplyError e :: w' => (Raise e, w')
  | _ :: w' => (Raise (APIError "unexpected reply"), w')
  | [] => (Raise (APIError "no reply"), [])
  end.

(** The texts of the sample data are strings; other values are rendered
    by their type name only. *)
Definition format_text (v : pyval) : string :=
  match v with
  | PStr s => s
  | PNone => "None"
  | PBool true => "True"
  | PBool false => "False"
  | PInt _ => "<int>"
  | PFloat _ => "<float>"
  | PList _ => "<list>"
  | PDict _ => "<dict>"
  end.

(** The entries of Python's case tables for the three characters outside
    ASCII that the samples use: U+00E9 and U+00C9 (e with acute, small and
    capital) and U+00DF (sharp s, whose title case is [Ss]). The samples
    hold no other such character. *)
Definition sample_case_tables : case_tables :=
  {| is_cased_wide := λ ch,
       String.eqb ch (of_bytes [195; 169]%nat) || String.eqb ch (of_bytes [195; 137]%nat)
       || String.eqb ch (of_bytes [195; 159]%nat);
     to_title_wide := λ ch,
       if String.eqb ch (of_bytes [195; 169]%nat) then of_bytes [195; 137]%nat
       else if String.eqb ch (of_bytes [195; 159]%nat) then "Ss"
       else ch;
     to_lower_wide := λ _ ch _,
       if String.eqb ch (of_bytes [195; 137]%nat) then of_bytes [195; 169]%nat
       else ch |}.

(** [json] lists the texts the fake parser decodes, each with its value;
    any other text is rejected as [json.loads] rejects invalid JSON. *)
Definition scripted (json : list (string * pyval)) : services (list reply) :=
  {| blocks_children_list := λ _, next_value;
     databases_query := λ _ _, next_value;
     pages_update := λ _ _, next_done;
     chat_completions_create := λ _ _ _, next_completion;
     json_loads := λ text, match Py.dict_get text json with
                           | Some v => Ok v
                           | None => Raise ValueError
                           end;
     format := format_text;
     unicode := sample_case_tables |}.

Definition completion (text : string) : chat_completion :=
  ChatCompletion [ChatChoice (ChatMessage (Some text))].

(** Sample data. *)
Definition run (text : string) : pyval := PDict [("plain_text", PStr text)].

Definition paragraph (texts : list string) : pyval :=
  PDict [("type", PStr "paragraph");
         ("paragraph", PDict [("rich_text", PList (run <$> texts))])].

Definition divider : pyval :=
  PDict [("type", PStr "divider"); ("divider", PDict [])].

Definition block_list (blocks : list pyval) : pyval :=
  PDict [("object", PStr "list"); ("results", PList blocks)].

Definition record (id prompt response : string) : pyval :=
  PDict [("id", PStr id);
         ("properties",
          PDict [("Prompt", PDict [("title", PList [run prompt])]);
                 ("AI Response", PDict [("rich_text", PList [run response])]);
                 ("Status", select "To be Rated")])].


Definition sample_rating : pyval :=
  PDict [("clarity_score", PInt 4); ("accuracy_score", PInt 5);
         ("evaluation_notes", PStr "ok")].

Definition sample_criteria : pyval :=
  block_list [paragraph ["Be clear."; "Be accurate."]; divider; paragraph ["Be kind."]].

(** Two records to rate; the chat service answers ["rating"], which the
    parser decodes to [sample_rating]. *)
Definition two_records : pyval :=
  block_list [record "p1" "hi" "hello"; record "p2" "bye" "goodbye"].

Definition sample_json : list (string * pyval) :=
  [("rating", sample_rating); ("{}", PDict [])].

Definition sample_update : gmap string pyval :=
  <[ "Clarity Score" := number (PInt 4) ]>
  (<[ "Accuracy Score" := number (PInt 5) ]>
   (<[ "Evaluation Notes" := rich_text (PStr "ok") ]>
    {[ "Status" := select "Rated" ]})).

Definition sample_text : string :=
  "Be clear." +:+ nl +:+ "Be accurate." +:+ nl +:+ "Be kind.".

(** ** The start of the script

    Lines 12-20 of the script are one [try] block: it reads
    [NOTION_API_KEY] and builds the Notion client from it, reads
    [OPENAI_API_KEY] and builds the OpenAI client from it, then reads the two
    identifiers. A [KeyError] raised in the block, by a read or by a
    constructor, is caught: the script prints it and calls [exit()]. Any
    other error of a constructor is not caught. The last lines call [main].
    The two constructors are parameters. *)

Record config (N O : Type) : Type := Config {
  notion_client : N;
  openai_client : O;
  responses_db_id : string;
  standards_page_id : string;
}.
Arguments Config {N O} _ _ _ _.
Arguments notion_client {N O} _.
Arguments openai_client {N O} _.
Arguments responses_db_id {N O} _.
Arguments standards_page_id {N O} _.


(** How the setup ends: at [exit()] after a caught [KeyError] (with the
    name of the variable when [os.environ[name]] raised it), with the
    uncaught error of a constructor, or with the clients and identifiers. *)
Inductive setup_end (N O : Type) : Type :=
| SetupExit (reported : option string)
| SetupError (e : exn)
| SetupDone (c : config N O).
Arguments SetupExit {N O} _.
Arguments SetupError {N O} _.
Arguments SetupDone {N O} _.

(** An exception raised by a constructor inside the [try] block. *)
Definition constructor_raised {N O : Type} (e : exn) : setup_end N O :=
  match e with
  | KeyError => SetupExit None
  | _ => SetupError e
  end.

Definition setup {N O : Type} (Client : string → outcome N) (OpenAI : string → outcome O)
    (environ : gmap string string) : setup_end N O :=
  match environ !! "NOTION_API_KEY" with
  | None => SetupExit (Some "NOTION_API_KEY")
  | Some notion_key =>
      match Client notion_key with
      | Raise e => constructor_raised e
      | Ok notion =>
          match environ !! "OPENAI_API_KEY" with
          | None => SetupExit (Some "OPENAI_API_KEY")
          | Some openai_key =>
              match OpenAI openai_key with
              | Raise e => constructor_raised e
              | Ok openai =>
                  match environ !! "NOTION_RESPONSES_DB_ID" with
                  | None => SetupExit (Some "NOTION_RESPONSES_DB_ID")
                  | Some db_id =>
                      match environ !! "NOTION_STANDARDS_PAGE_ID" with
                      | None => SetupExit (Some "NOTION_STANDARDS_PAGE_ID")
                      | Some page_id => SetupDone (Config notion openai db_id page_id)
                      end
                  end
              end
          end
      end
  end.

(** How the process ends: at [exit()] in the setup, with the uncaught
    error of a constructor, or when [main] returns or raises. *)
Inductive script_end : Type :=
| Exited (reported : option string)
| SetupFailed (e : exn)
| Finished (r : outcome ()).

(** The whole script; [services_of] gives the calls the two clients
    offer. *)
Definition script {W N O : Type} (Client : string → outcome N)
    (OpenAI : string → outcome O) (services_of : N → O → services W)
    (environ : gmap string string) (w : W) : script_end * W * list event :=
  match setup Client OpenAI environ with
  | SetupExit reported => (Exited reported, w, [])
  | SetupError e => (SetupFailed e, w, [])
  | SetupDone c =>
      let '(r, w', trace) :=
        main (services_of (notion_client c) (openai_client c))
             (responses_db_id c) (standards_page_id c) w in
      (Finished r, w', trace)
  end.

(** ** Notions used to state further properties *)

(** A key in ASCII snake case, as the prompt asks for: ASCII characters
    only, no upper-case letter and no space. *)
Fixpoint is_snake_case (key : string) : bool :=
  match key with
  | EmptyString => true
  | String c key' =>
      PyStr.is_ascii c && negb (PyStr.is_upper c) && negb (Ascii.eqb c " ")
      && is_snake_case key'
  end.

(** Back from a column name to the key: lower case, spaces to
    underscores. *)
Fixpoint lower (s : string) : string :=
  match s with
  | EmptyString => EmptyString
  | String c s' => String (PyStr.to_lower c) (lower s')
  end.

Definition key_of_column (column : string) : string :=
  PyStr.replace " " "_" (lower column).

(** The rating requests and the writes of a trace. *)
Definition rating_requests (trace : list event) : list event :=
  List.filter (λ ev, is_rating_call (request ev)) trace.

Definition writes (trace : list event) : list event :=
  List.filter (λ ev, is_write (request ev)) trace.

(** A write to the record [page_id]. *)
Definition writes_to (page_id : pyval) (ev : event) : Prop :=
  ∃ properties, request ev = PagesUpdate page_id properties.

(** Fake constructors for the sample runs: the client is its key, and the
    OpenAI constructor refuses an empty key. *)
Definition sample_Client (key : string) : outcome string := Ok key.

Definition sample_OpenAI (key : string) : outcome string :=
  if String.eqb key "" then Raise (APIError "the api_key must be set") else Ok key.

Definition sample_services (json : list (string * pyval))
    (notion openai : string) : services (list reply) :=
  scripted json.

Definition sample_environ : gmap string string :=
  <[ "NOTION_API_KEY" := "secret_n" ]>
  (<[ "OPENAI_API_KEY" := "secret_o" ]>
   (<[ "NOTION_RESPONSES_DB_ID" := "responses" ]>
    {[ "NOTION_STANDARDS_PAGE_ID" := "standards" ]})).

(** * Properties *)

(** Evaluation of the interpreter's checks, one layer at a time. *)
Ltac py_cbn :=
  cbn [mbind outcome_mbind outcome_bind fmap outcome_fmap mret outcome_ret
       Py.getitem Py.get Py.contains Py.iter Py.len].

(** ** Strings *)

Lemma endswith_refl s : PyStr.endswith s s = true.
Proof. destruct s; cbn [PyStr.endswith]; by rewrite String.eqb_refl. Qed.

Lemma endswith_app p suffix : PyStr.endswith (p +:+ suffix) suffix = true.
Proof.
  induction p as [|c p IH]; [apply endswith_refl|].
  change (String c p +:+ suffix) with (String c (p +:+ suffix)).
  cbn [PyStr.endswith]. rewrite IH. by destruct (String.eqb _ _).
Qed.

Lemma endswith_inv s suffix :
  PyStr.endswith s suffix = true → ∃ p, s = p +:+ suffix.
Proof.
  induction s as [|c s IH]; cbn [PyStr.endswith].
  - destruct (String.eqb_spec "" suffix) as [<-|]; [by exists ""|done].
  - destruct (String.eqb_spec (String c s) suffix) as [<-|_].
    + by exists "".
    + intros [p ->]%IH. by exists (String c p).
Qed.

Lemma replace_app old new p q :
  PyStr.replace old new (p +:+ q) = PyStr.replace old new p +:+ PyStr.replace old new q.
Proof. induction p as [|c p IH]; simpl; [done|by rewrite IH]. Qed.

Lemma append_assoc (a b c : string) : (a +:+ b) +:+ c = a +:+ (b +:+ c).
Proof.
  induction a as [|x a IH]; [done|].
  change (String x ((a +:+ b) +:+ c) = String x (a +:+ (b +:+ c))). by rewrite IH.
Qed.

(** *** Characters *)

Lemma chars_cons c s :
  PyStr.chars (String c s) =
  match PyStr.chars s with
  | String d k :: rest =>
      if PyStr.is_continuation d then String c (String d k) :: rest
      else String c EmptyString :: String d k :: rest
  | rest => String c EmptyString :: rest
  end.
Proof. reflexivity. Qed.

Lemma chars_head c s : ∃ k rest, PyStr.chars (String c s) = String c k :: rest.
Proof.
  rewrite chars_cons. destruct (PyStr.chars s) as [|[|d k] rest]; [by eexists _, _..|].
  destruct (PyStr.is_continuation d); by eexists _, _.
Qed.

(** A string that does not start with a continuation byte. *)
Definition starts_character (s : string) : Prop :=
  match s with
  | EmptyString => True
  | String d _ => PyStr.is_continuation d = false
  end.

Lemma chars_cons_boundary c s :
  starts_character s → PyStr.chars (String c s) = String c EmptyString :: PyStr.chars s.
Proof.
  rewrite chars_cons. destruct s as [|d s]; [done|]. intros Hd.
  destruct (chars_head d s) as (k & rest & ->). cbn in Hd. by rewrite Hd.
Qed.

Lemma chars_app p q :
  starts_character q → PyStr.chars (p +:+ q) = PyStr.chars p ++ PyStr.chars q.
Proof.
  intros Hq. induction p as [|c p IH]; [done|].
  change (String c p +:+ q) with (String c (p +:+ q)).
  rewrite !chars_cons, IH. destruct p as [|c' p].
  - cbn [PyStr.chars app]. destruct q as [|d q]; [done|].
    destruct (chars_head d q) as (k & rest & ->). cbn in Hq. by rewrite Hq.
  - destruct (chars_head c' p) as (k & rest & ->). cbn [app].
    by destruct (PyStr.is_continuation c').
Qed.

Lemma chars_nonempty s : Forall (λ ch, ch ≠ "") (PyStr.chars s).
Proof.
  induction s as [|c s IH]; [constructor|]. rewrite chars_cons.
  destruct (PyStr.chars s) as [|[|d k] rest]; [by repeat constructor| |].
  - by constructor.
  - apply Forall_cons in IH as [_ IH].
    destruct (PyStr.is_continuation d); by repeat constructor.
Qed.

(** *** Whitespace *)

Ltac byte_tests :=
  repeat match goal with
    | H : (_ && _) = true |- _ => apply andb_prop in H as [? ?]
    | H : (_ || _) = true |- _ => apply orb_prop in H as [?|?]
    | H : (_ =? _)%nat = true |- _ => apply Nat.eqb_eq in H
    | H : (_ <=? _)%nat = true |- _ => apply Nat.leb_le in H
    end.

Ltac is_whitespace := solve [vm_compute; repeat constructor].

(** Names the value [x] of the byte [a] and writes [a] as the byte of
    value [x]. *)
Ltac as_byte a x :=
  let E := fresh "E" in
  pose proof (ascii_nat_embedding a) as E;
  remember (nat_of_ascii a) as x in *;
  rewrite <- E;
  match goal with Hx : x = nat_of_ascii a |- _ => clear Hx end;
  clear E.

(** The modelled test and the list of Python's whitespace characters
    agree. *)
Lemma is_space_whitespace ch :
  PyStr.is_space ch = true ↔ ch ∈ whitespace_characters.
Proof.
  split.
  - unfold PyStr.is_space, PyStr.bytes.
    destruct ch as [|a [|b [|c [|d ch]]]]; cbn [list_ascii_of_string fmap list_fmap];
      try discriminate; intros H.
    + as_byte a x. byte_tests.
      * assert (x = 9 ∨ x = 10 ∨ x = 11 ∨ x = 12 ∨ x = 13)%nat as Hx by lia.
        destruct Hx as [->|[->|[->|[->| ->]]]]; is_whitespace.
      * assert (x = 28 ∨ x = 29 ∨ x = 30 ∨ x = 31 ∨ x = 32)%nat as Hx by lia.
        destruct Hx as [->|[->|[->|[->| ->]]]]; is_whitespace.
    + as_byte a x. as_byte b y. byte_tests; subst; is_whitespace.
    + as_byte a x. as_byte b y. as_byte c z. byte_tests; subst; try is_whitespace.
      assert (z = 128 ∨ z = 129 ∨ z = 130 ∨ z = 131 ∨ z = 132 ∨ z = 133 ∨ z = 134 ∨
              z = 135 ∨ z = 136 ∨ z = 137 ∨ z = 138)%nat as Hz by lia.
      destruct Hz as [->|[->|[->|[->|[->|[->|[->|[->|[->|[->| ->]]]]]]]]]]; is_whitespace.
  - revert ch. apply Forall_forall. vm_compute. repeat constructor.
Qed.

Lemma all_space_blank s : PyStr.all_space s = true ↔ blank s.
Proof.
  unfold PyStr.all_space, blank. rewrite forallb_forall, Forall_forall.
  split; intros H ch Hin.
  - apply is_space_whitespace, H. by apply list_elem_of_In.
  - apply is_space_whitespace, H. by apply list_elem_of_In.
Qed.

Lemma drop_spaces_nil chs :
  PyStr.drop_spaces chs = [] ↔ forallb PyStr.is_space chs = true.
Proof.
  induction chs as [|ch chs IH]; [done|]. cbn [PyStr.drop_spaces forallb].
  by destruct (PyStr.is_space ch).
Qed.

Lemma drop_spaces_head chs ch rest :
  PyStr.drop_spaces chs = ch :: rest → PyStr.is_space ch = false.
Proof.
  induction chs as [|ch' chs IH]; [done|]. cbn [PyStr.drop_spaces].
  destruct (PyStr.is_space ch') eqn:Hs; [done|]. by intros [= <- _].
Qed.

Lemma drop_spaces_Forall (P : string → Prop) chs :
  Forall P chs → Forall P (PyStr.drop_spaces chs).
Proof.
  induction 1 as [|ch chs Hch Hchs IH]; [constructor|]. cbn [PyStr.drop_spaces].
  destruct (PyStr.is_space ch); [done|by constructor].
Qed.

Lemma concat_empty chs :
  Forall (λ ch, ch ≠ "") chs → PyStr.concat chs = "" → chs = [].
Proof. destruct 1 as [|[|c ch] chs Hch _]; [done|done|discriminate]. Qed.

Lemma forallb_rev {A : Type} (f : A → bool) (l : list A) :
  forallb f (rev l) = forallb f l.
Proof.
  apply eq_true_iff_eq. rewrite !forallb_forall.
  split; intros H x Hin; apply H; by apply in_rev in Hin || apply in_rev.
Qed.

Lemma strip_empty_all_space s :
  PyStr.strip s = "" ↔ PyStr.all_space s = true.
Proof.
  unfold PyStr.strip, PyStr.all_space. split.
  - intros H. apply concat_empty in H.
    2:{ apply Forall_rev, drop_spaces_Forall, Forall_rev, drop_spaces_Forall,
          chars_nonempty. }
    apply (f_equal (@rev string)) in H. rewrite rev_involutive in H. cbn [rev] in H.
    apply drop_spaces_nil in H. rewrite forallb_rev in H.
    destruct (PyStr.drop_spaces (PyStr.chars s)) as [|ch rest] eqn:Hd.
    + by apply drop_spaces_nil.
    + apply drop_spaces_head in Hd. cbn [forallb] in H. by rewrite Hd in H.
  - intros H. apply drop_spaces_nil in H. by rewrite H.
Qed.

(** [not full_criteria.strip()] *)
Lemma blank_all_space s :
  negb (Py.truthy (PStr (PyStr.strip s))) = PyStr.all_space s.
Proof.
  simpl. rewrite negb_involutive.
  destruct (PyStr.all_space s) eqn:Hs.
  - apply strip_empty_all_space in Hs. by rewrite Hs.
  - destruct (String.eqb_spec (PyStr.strip s) "") as [E|]; [|done].
    apply strip_empty_all_space in E. congruence.
Qed.

(** [not full_criteria.strip()] holds exactly of the blank texts. *)
Lemma strip_falsy_blank s :
  negb (Py.truthy (PStr (PyStr.strip s))) = true ↔ blank s.
Proof. rewrite blank_all_space. apply all_space_blank. Qed.

(** *** Column names *)

(** Whatever precedes it, a final [" score"] is title-cased to [" Score"]. *)
Lemma title_chars_score t b before chs :
  ∃ p, PyStr.title_chars t b before (chs ++ PyStr.chars " score") = p +:+ " Score".
Proof.
  revert b before. induction chs as [|ch chs IH]; intros b before.
  - exists "". by destruct b.
  - cbn [app PyStr.title_chars].
    destruct (IH (PyStr.char_is_cased t ch) (before ++ [ch])) as [p ->].
    eexists (_ +:+ p). by rewrite append_assoc.
Qed.

Section Properties.

Context {W : Type}.
Variable svc : services W.
Variable RESPONSES_DB_ID : string.
Variable STANDARDS_PAGE_ID : string.

Lemma prop_name_score key :
  PyStr.endswith key "_score" = true →
  PyStr.endswith (prop_name svc key) " Score" = true.
Proof.
  intros [p ->]%endswith_inv. unfold prop_name, PyStr.title.
  rewrite replace_app. change (PyStr.replace "_" " " "_score") with " score".
  rewrite chars_app; [|done].
  destruct (title_chars_score (unicode svc) false [] (PyStr.chars (PyStr.replace "_" " " p)))
    as [p' ->].
  apply endswith_app.
Qed.

(** A score column is never one of the two fixed columns. *)
Lemma prop_name_not_fixed key value :
  is_score key value = true →
  prop_name svc key ≠ "Status" ∧ prop_name svc key ≠ "Evaluation Notes".
Proof.
  unfold is_score. intros [Hs%prop_name_score _]%andb_prop.
  split; intros E; rewrite E in Hs; discriminate Hs.
Qed.

(** ** The score loop of the writer *)

Lemma add_score_lookup_ne m item c :
  (is_score item.1 item.2 = true → prop_name svc item.1 ≠ c) →
  add_score svc m item !! c = m !! c.
Proof.
  intros H. unfold add_score. destruct (is_score _ _); [|done].
  by rewrite lookup_insert_ne; [|apply H].
Qed.

Lemma add_scores_lookup_ne m entries c :
  (∀ k v, (k, v) ∈ entries → is_score k v = true → prop_name svc k ≠ c) →
  foldl (add_score svc) m entries !! c = m !! c.
Proof.
  revert m. induction entries as [|[k v] entries IH]; intros m H; simpl; [done|].
  rewrite IH.
  - apply add_score_lookup_ne. simpl. apply H. by left.
  - intros k' v' Hin. apply H. by right.
Qed.

Lemma add_scores_lookup_last m before k v after :
  is_score k v = true →
  (∀ k' v', (k', v') ∈ after → is_score k' v' = true → prop_name svc k' ≠ prop_name svc k) →
  foldl (add_score svc) m (before ++ (k, v) :: after) !! prop_name svc k = Some (number v).
Proof.
  intros Hs Hafter. rewrite foldl_app. simpl.
  rewrite add_scores_lookup_ne; [|done].
  unfold add_score. simpl. rewrite Hs. apply lookup_insert_eq.
Qed.

Lemma add_scores_lookup_inv m entries c x :
  foldl (add_score svc) m entries !! c = Some x →
  m !! c = Some x ∨
  ∃ k v, (k, v) ∈ entries ∧ is_score k v = true ∧ c = prop_name svc k ∧ x = number v.
Proof.
  revert m. induction entries as [|[k v] entries IH]; intros m; simpl; [by left|].
  intros [H|(k' & v' & Hin & ?)]%IH.
  - unfold add_score in H. simpl in H. destruct (is_score k v) eqn:Hs; [|by left].
    destruct (decide (prop_name svc k = c)) as [<-|Hne].
    + rewrite lookup_insert_eq in H. injection H as <-.
      right. exists k, v. split; [by left|done].
    + rewrite lookup_insert_ne in H; [by left|done].
  - right. exists k', v'. split; [by right|done].
Qed.

Lemma add_scores_lookup_score m entries k v :
  (k, v) ∈ entries → is_score k v = true →
  ∃ k' v', (k', v') ∈ entries ∧ is_score k' v' = true ∧
           prop_name svc k' = prop_name svc k ∧
           foldl (add_score svc) m entries !! prop_name svc k = Some (number v').
Proof.
  revert m. induction entries as [|[k0 v0] entries IH] using rev_ind; intros m Hin Hs.
  - by apply elem_of_nil in Hin.
  - rewrite foldl_app. simpl.
    destruct (decide (is_score k0 v0 = true ∧ prop_name svc k0 = prop_name svc k)) as [[Hs0 E]|Hn].
    + exists k0, v0. split; [apply elem_of_app; right; by left|].
      split; [done|]. split; [done|].
      unfold add_score. simpl. rewrite Hs0, E. apply lookup_insert_eq.
    + apply elem_of_app in Hin as [Hin|Hin].
      * destruct (IH m Hin Hs) as (k' & v' & Hin' & Hs' & E & Hl).
        exists k', v'. split; [apply elem_of_app; by left|].
        split; [done|]. split; [done|].
        rewrite add_score_lookup_ne; [done|]. simpl. intros ??. apply Hn. done.
      * apply list_elem_of_singleton in Hin. injection Hin as -> ->.
        destruct Hn. done.
Qed.

Lemma properties_to_update_dict entries :
  properties_to_update svc (PDict entries) =
  Ok (foldl (add_score svc)
        (fixed_properties (default (PStr "N/A") (Py.dict_get "evaluation_notes" entries)))
        entries).
Proof. unfold properties_to_update. simpl. by destruct (Py.dict_get _ _). Qed.

Lemma fixed_properties_lookup notes :
  fixed_properties notes !! "Evaluation Notes" = Some (rich_text notes) ∧
  fixed_properties notes !! "Status" = Some (select "Rated").
Proof.
  unfold fixed_properties. split.
  - rewrite lookup_insert_ne; [|done]. apply lookup_singleton_eq.
  - apply lookup_insert_eq.
Qed.

Lemma fixed_properties_lookup_inv notes c x :
  fixed_properties notes !! c = Some x → c = "Evaluation Notes" ∨ c = "Status".
Proof.
  unfold fixed_properties. intros H.
  destruct (decide ("Status" = c)) as [<-|Hs]; [by right|].
  rewrite lookup_insert_ne in H; [|done].
  destruct (decide ("Evaluation Notes" = c)) as [<-|Hn]; [by left|].
  by rewrite lookup_singleton_ne in H.
Qed.

(** ** The writer *)

(** What [update_notion_page] does with the world: the primary update, and
    the fallback write when the primary update raised. *)
Lemma update_notion_page_run page_id rating properties w :
  properties_to_update svc rating = Ok properties →
  update_notion_page svc page_id rating w =
  match pages_update svc page_id properties w with
  | (Ok u, w1) => (Ok u, w1, [Event (PagesUpdate page_id properties) None])
  | (Raise e, w1) =>
      let '(r, w2) := pages_update svc page_id error_properties w1 in
      (r, w2, [Event (PagesUpdate page_id properties) (Some e);
               Event (PagesUpdate page_id error_properties) (failure_of r)])
  end.
Proof.
  intros Hp. unfold update_notion_page, mbind, prog_mbind, prog_bind, lift.
  rewrite Hp. unfold try_except, notion_pages_update, record_call.
  destruct (pages_update svc page_id properties w) as [[u|e] w1]; simpl; [done|].
  by destruct (pages_update svc page_id error_properties w1) as [r w2].
Qed.

(** The update built from the rating is the first call of the writer, and
    the only one when it succeeds. *)
Lemma update_notion_page_sends page_id rating properties w :
  properties_to_update svc rating = Ok properties →
  ∃ r w' f fallback,
    update_notion_page svc page_id rating w =
      (r, w', Event (PagesUpdate page_id properties) f :: fallback) ∧
    (f = None → fallback = [] ∧ r = Ok ()).
Proof.
  intros Hp. rewrite (update_notion_page_run _ _ _ _ Hp).
  destruct (pages_update svc page_id properties w) as [[[]|e] w1].
  - by eexists _, _, _, _.
  - destruct (pages_update svc page_id error_properties w1) as [r w2].
    by eexists _, _, _, _.
Qed.

(** C1 (as amended): for every rating object, [update_notion_page] builds one
    update, sent as its first call. The update always sets
    [Evaluation Notes] (from [evaluation_notes], or the placeholder ["N/A"]
    when the key is absent) and [Status = Rated]. Every key ending in
    [_score] whose value passes [isinstance(value, (int, float))], that is an
    integer, a float or a boolean, has a numeric column named by its
    underscore-to-space title-cased form, carrying the value of such a key
    with that column name. Every column of the update is one of the two
    fixed ones or comes from such a key. For the rating of the example the
    update is exactly the four columns listed. *)
Theorem update_notion_page_columns (page_id : pyval) (entries : list (string * pyval)) (w : W) :
  let notes := default (PStr "N/A") (Py.dict_get "evaluation_notes" entries) in
  let properties := foldl (add_score svc) (fixed_properties notes) entries in
  properties_to_update svc (PDict entries) = Ok properties ∧
  (∃ r w' f fallback,
     update_notion_page svc page_id (PDict entries) w =
       (r, w', Event (PagesUpdate page_id properties) f :: fallback) ∧
     (f = None → fallback = [] ∧ r = Ok ())) ∧
  properties !! "Evaluation Notes" = Some (rich_text notes) ∧
  properties !! "Status" = Some (select "Rated") ∧
  (∀ k v, (k, v) ∈ entries →
     PyStr.endswith k "_score" = true → Py.isinstance_int_float v = true →
     ∃ k' v', (k', v') ∈ entries ∧
              PyStr.endswith k' "_score" = true ∧ Py.isinstance_int_float v' = true ∧
              prop_name svc k' = prop_name svc k ∧
              properties !! prop_name svc k = Some (number v')) ∧
  (∀ c x, properties !! c = Some x →
     c = "Evaluation Notes" ∨ c = "Status" ∨
     ∃ k v, (k, v) ∈ entries ∧
            PyStr.endswith k "_score" = true ∧ Py.isinstance_int_float v = true ∧
            c = prop_name svc k ∧ x = number v) ∧
  properties_to_update svc sample_rating =
    Ok (<[ "Clarity Score" := number (PInt 4) ]>
        (<[ "Accuracy Score" := number (PInt 5) ]>
         (<[ "Evaluation Notes" := rich_text (PStr "ok") ]>
          {[ "Status" := select "Rated" ]}))).
Proof.
  intros notes properties.
  assert (Hp : properties_to_update svc (PDict entries) = Ok properties)
    by apply properties_to_update_dict.
  destruct (fixed_properties_lookup notes) as [Hnotes Hstatus].
  split; [done|]. split; [by apply update_notion_page_sends|].
  split; [|split; [|split; [|split]]].
  - unfold properties. rewrite add_scores_lookup_ne; [done|].
    intros k v _ Hs. by apply (prop_name_not_fixed k v).
  - unfold properties. rewrite add_scores_lookup_ne; [done|].
    intros k v _ Hs. by apply (prop_name_not_fixed k v).
  - intros k v Hin He Hi.
    destruct (add_scores_lookup_score (fixed_properties notes) entries k v Hin)
      as (k' & v' & Hin' & [He' Hi']%andb_prop & E & Hl).
    { unfold is_score. by rewrite He, Hi. }
    by exists k', v'.
  - intros c x [H|(k & v & Hin & [He Hi]%andb_prop & -> & ->)]%add_scores_lookup_inv.
    + apply fixed_properties_lookup_inv in H as [->| ->]; auto.
    + right. right. by exists k, v.
  - vm_compute. reflexivity.
Qed.

(** C10 (as amended): for every rating object containing a key ending in
    [_score] whose value is a boolean, when no later key passing the
    writer's test has the same column name, the update built by
    [update_notion_page], and sent as its first call, has under that column
    name a numeric field carrying the boolean. *)
Theorem bool_score_is_mapped (page_id : pyval) (before after : list (string * pyval))
    (key : string) (b : bool) (w : W) :
  PyStr.endswith key "_score" = true →
  (∀ k' v', (k', v') ∈ after → is_score k' v' = true → prop_name svc k' ≠ prop_name svc key) →
  ∃ properties,
    properties_to_update svc (PDict (before ++ (key, PBool b) :: after)) = Ok properties ∧
    properties !! prop_name svc key = Some (number (PBool b)) ∧
    ∃ r w' f fallback,
      update_notion_page svc page_id (PDict (before ++ (key, PBool b) :: after)) w =
        (r, w', Event (PagesUpdate page_id properties) f :: fallback).
Proof.
  intros He Hafter. eexists. split; [apply properties_to_update_dict|].
  split.
  - apply add_scores_lookup_last; [|done].
    unfold is_score. by rewrite He.
  - destruct (update_notion_page_sends page_id _ _ w
                (properties_to_update_dict (before ++ (key, PBool b) :: after)))
      as (r & w' & f & fallback & Hrun & _).
    by exists r, w', f, fallback.
Qed.

(** ** The criteria loader *)

(** The loader issues one call, the block-list fetch, and never raises:
    whatever goes wrong after or during the fetch gives [None]. *)
Lemma get_rating_criteria_run w :
  get_rating_criteria svc STANDARDS_PAGE_ID w =
  let '(r, w1) := blocks_children_list svc STANDARDS_PAGE_ID w in
  (Ok (match r ≫= criteria_of with Ok v => v | Raise _ => PNone end), w1,
   [Event (BlocksChildrenList STANDARDS_PAGE_ID) (failure_of r)]).
Proof.
  unfold get_rating_criteria, try_except, mbind, prog_mbind, prog_bind,
    notion_blocks_children_list, record_call, lift.
  destruct (blocks_children_list svc STANDARDS_PAGE_ID w) as [[response|e] w1]; simpl; [|done].
  by destruct (criteria_of response).
Qed.

Lemma append_runs_texts criteria_text runs texts :
  Forall2 run_text runs texts →
  append_runs criteria_text runs = Ok (criteria_text ++ (PStr <$> texts)).
Proof.
  intros H. revert criteria_text.
  induction H as [|run s runs texts Hrun _ IH]; intros criteria_text; simpl.
  - by rewrite app_nil_r.
  - destruct Hrun as [entries s Hs]. simpl. rewrite Hs. simpl.
    rewrite IH. by rewrite <- app_assoc.
Qed.

Lemma visit_block_texts criteria_text block texts :
  block_text block texts →
  visit_block criteria_text block = Ok (criteria_text ++ (PStr <$> texts)).
Proof.
  intros [entries ty sub runs ts Hty Hsub Hrt Hruns
         |entries ty sub Hty Hsub Hrt
         |entries ty Hty Hsub]; unfold visit_block;
    py_cbn; rewrite Hty; py_cbn; rewrite Hsub; py_cbn.
  - rewrite Hrt. cbn [bool_decide decide_rel is_Some_dec]. py_cbn.
    by apply append_runs_texts.
  - rewrite Hrt. cbn. by rewrite app_nil_r.
  - cbn. by rewrite app_nil_r.
Qed.

Lemma visit_blocks_texts criteria_text blocks texts :
  Forall2 block_text blocks texts →
  visit_blocks criteria_text blocks = Ok (criteria_text ++ (PStr <$> concat texts)).
Proof.
  intros H. revert criteria_text.
  induction H as [|block ts blocks texts Hblock _ IH]; intros criteria_text; simpl.
  - by rewrite app_nil_r.
  - rewrite (visit_block_texts _ _ _ Hblock). simpl.
    rewrite IH, fmap_app. by rewrite <- app_assoc.
Qed.

Lemma strings_of_strs (texts : list string) : Py.strings_of (PStr <$> texts) = Ok texts.
Proof.
  induction texts as [|s texts IH]; [done|].
  change (Py.strings_of (PStr <$> s :: texts))
    with (cons s <$> Py.strings_of (PStr <$> texts)).
  by rewrite IH.
Qed.

Lemma criteria_of_blocks response blocks texts :
  Py.dict_get "results" response = Some (PList blocks) →
  Forall2 block_text blocks texts →
  criteria_of (PDict response) =
  Ok (if PyStr.all_space (PyStr.join nl (concat texts)) then PNone
      else PStr (PyStr.join nl (concat texts))).
Proof.
  intros Hres Hblocks. unfold criteria_of. py_cbn. rewrite Hres. py_cbn.
  rewrite (visit_blocks_texts [] _ _ Hblocks). py_cbn. rewrite app_nil_l.
  unfold Py.join. rewrite strings_of_strs. py_cbn.
  rewrite blank_all_space. by destruct (PyStr.all_space _).
Qed.

(** C3 (as amended): for every ordered block list whose newline-joined text
    has a character that is not whitespace (it is not [blank]: not made of
    Python's whitespace characters only), [get_rating_criteria] returns
    exactly the newline-join of every text run's plain-text content, in
    document order, blocks without a rich-text collection under their own
    type key contributing nothing. *)
Theorem get_rating_criteria_join (w w' : W) (response : list (string * pyval))
    (blocks : list pyval) (texts : list (list string)) :
  blocks_children_list svc STANDARDS_PAGE_ID w = (Ok (PDict response), w') →
  Py.dict_get "results" response = Some (PList blocks) →
  Forall2 block_text blocks texts →
  ¬ blank (PyStr.join nl (concat texts)) →
  get_rating_criteria svc STANDARDS_PAGE_ID w =
    (Ok (PStr (PyStr.join nl (concat texts))), w',
     [Event (BlocksChildrenList STANDARDS_PAGE_ID) None]).
Proof.
  intros Hfetch Hres Hblocks Htext.
  rewrite get_rating_criteria_run, Hfetch. simpl.
  rewrite (criteria_of_blocks _ _ _ Hres Hblocks).
  destruct (PyStr.all_space _) eqn:Hs; [|done].
  by apply all_space_blank in Hs.
Qed.

(** C8: [get_rating_criteria] never raises, and, the fetch having failed or
    given a list of blocks, it returns [None] exactly when the fetch raised
    or the newline-joined text is empty or whitespace-only ([blank]: each
    of its characters is one of Python's whitespace characters). *)
Theorem get_rating_criteria_absent (w : W) (document : option (list (list string))) :
  fetched_document (blocks_children_list svc STANDARDS_PAGE_ID w).1 document →
  ∃ v w' f,
    get_rating_criteria svc STANDARDS_PAGE_ID w =
      (Ok v, w', [Event (BlocksChildrenList STANDARDS_PAGE_ID) f]) ∧
    (v = PNone ↔
     (∃ e, (blocks_children_list svc STANDARDS_PAGE_ID w).1 = Raise e) ∨
     (∃ texts, document = Some texts ∧ blank (PyStr.join nl (concat texts)))).
Proof.
  intros Hdoc. rewrite get_rating_criteria_run.
  destruct (blocks_children_list svc STANDARDS_PAGE_ID w) as [r w1]. simpl in *.
  eexists _, _, _. split; [done|].
  destruct Hdoc as [e|response Hres|response blocks texts Hres Hblocks]; simpl.
  - split; [|done]. intros _. left. by exists e.
  - unfold criteria_of. py_cbn. rewrite Hres. split; [|done].
    intros _. right. exists []. split; [done|constructor].
  - rewrite (criteria_of_blocks _ _ _ Hres Hblocks).
    destruct (PyStr.all_space _) eqn:Hs.
    + split; [|done]. intros _. right. exists texts. split; [done|].
      by apply all_space_blank.
    + split; [done|]. intros [[e ?]|(texts' & [= <-] & Hb%all_space_blank)]; congruence.
Qed.

(** ** The record fetcher *)

Lemma get_unrated_responses_run w :
  get_unrated_responses svc RESPONSES_DB_ID w =
  let '(r, w1) := databases_query svc RESPONSES_DB_ID status_filter w in
  (Ok (match r ≫= results_of with Ok v => v | Raise _ => PList [] end), w1,
   [Event (DatabasesQuery RESPONSES_DB_ID status_filter) (failure_of r)]).
Proof.
  unfold get_unrated_responses, try_except, mbind, prog_mbind, prog_bind,
    notion_databases_query, record_call, lift.
  destruct (databases_query svc RESPONSES_DB_ID status_filter w) as [[response|e] w1];
    simpl; [|done].
  by destruct (results_of response).
Qed.

(** C6: [get_unrated_responses] issues exactly one call, a query whose
    filter is "the select field [Status] equals [To be Rated]", and never
    raises; when the query answers with a result list it returns that list
    as it is, and when the query raises it returns the empty list. *)
Theorem get_unrated_responses_spec (w : W) :
  status_filter =
    PDict [("property", PStr "Status");
           ("select", PDict [("equals", PStr "To be Rated")])] ∧
  (∃ v w' f,
     get_unrated_responses svc RESPONSES_DB_ID w =
       (Ok v, w', [Event (DatabasesQuery RESPONSES_DB_ID status_filter) f])) ∧
  (∀ response records w',
     databases_query svc RESPONSES_DB_ID status_filter w = (Ok (PDict response), w') →
     Py.dict_get "results" response = Some (PList records) →
     get_unrated_responses svc RESPONSES_DB_ID w =
       (Ok (PList records), w',
        [Event (DatabasesQuery RESPONSES_DB_ID status_filter) None])) ∧
  (∀ e w',
     databases_query svc RESPONSES_DB_ID status_filter w = (Raise e, w') →
     get_unrated_responses svc RESPONSES_DB_ID w =
       (Ok (PList []), w',
        [Event (DatabasesQuery RESPONSES_DB_ID status_filter) (Some e)])).
Proof.
  split; [done|]. rewrite get_unrated_responses_run.
  destruct (databases_query svc RESPONSES_DB_ID status_filter w) as [r w1].
  split; [by eexists _, _, _|]. split.
  - intros response records w' [= -> ->] Hres.
    unfold results_of. py_cbn. rewrite Hres. done.
  - by intros e w' [= -> ->].
Qed.

(** ** The rating engine *)

(** The engine issues one call, the chat request, and never raises. *)
Lemma get_rating_from_ai_run criteria user_prompt chatbot_response w :
  get_rating_from_ai svc criteria user_prompt chatbot_response w =
  let '(r, w1) :=
    chat_completions_create svc "gpt-4-turbo" (PDict [("type", PStr "json_object")])
      [("system", system_message);
       ("user", master_prompt svc criteria user_prompt chatbot_response)] w in
  (Ok (match r ≫= rating_of svc with Ok v => v | Raise _ => PNone end), w1,
   [Event (rating_request svc criteria user_prompt chatbot_response) (failure_of r)]).
Proof.
  unfold get_rating_from_ai, try_except, mbind, prog_mbind, prog_bind,
    openai_chat_completions_create, record_call, lift, rating_request.
  destruct (chat_completions_create svc _ _ _ w) as [[response|e] w1]; simpl; [|done].
  by destruct (rating_of svc response).
Qed.

(** ** The driver *)

Lemma seq_index_first {A : Type} (x : A) (items : list A) :
  Py.seq_index (x :: items) 0 = Ok x.
Proof.
  unfold Py.seq_index. cbn [length Z.ltb Z.compare orb].
  destruct (Z.leb_spec (Z.of_nat (S (length items))) 0) as [H|_]; [lia|done].
Qed.








(** C7: when the criteria loader returns [None], or the record fetcher
    returns the empty list, [main] returns normally and its trace holds no
    rating request and no write to the record store. *)
Theorem main_exits_early (w : W) :
  ((∃ w1 t1, get_rating_criteria svc STANDARDS_PAGE_ID w = (Ok PNone, w1, t1)) ∨
   (∃ criteria w1 t1 w2 t2,
      get_rating_criteria svc STANDARDS_PAGE_ID w = (Ok criteria, w1, t1) ∧
      get_unrated_responses svc RESPONSES_DB_ID w1 = (Ok (PList []), w2, t2))) →
  ∃ w' trace,
    main svc RESPONSES_DB_ID STANDARDS_PAGE_ID w = (Ok (), w', trace) ∧
    Forall (λ ev, is_rating_call (request ev) = false ∧ is_write (request ev) = false)
           trace.
Proof.
  intros H. unfold main, mbind, prog_mbind, prog_bind.
  destruct H as [(w1 & t1 & Hc)|(criteria & w1 & t1 & w2 & t2 & Hc & Hr)]; rewrite Hc.
  - cbn. rewrite app_nil_r. eexists _, _. split; [done|].
    rewrite get_rating_criteria_run in Hc.
    destruct (blocks_children_list svc STANDARDS_PAGE_ID w) as [r0 w0].
    injection Hc as _ _ <-. by repeat constructor.
  - rewrite get_rating_criteria_run in Hc.
    destruct (blocks_children_list svc STANDARDS_PAGE_ID w) as [r0 w0].
    injection Hc as _ _ <-.
    destruct (negb (Py.truthy criteria)); cbn.
    + eexists _, _. split; [done|]. by repeat constructor.
    + rewrite Hr. cbn. eexists _, _. split; [done|].
      rewrite get_unrated_responses_run in Hr.
      destruct (databases_query svc RESPONSES_DB_ID status_filter w1) as [r1 w3].
      injection Hr as _ _ <-. by repeat constructor.
Qed.

(** ** Failure of a fallback write *)

Lemma properties_to_update_inv rating properties :
  properties_to_update svc rating = Ok properties →
  is_Some (properties !! "Evaluation Notes").
Proof.
  destruct rating as [| | | | | |entries]; try done.
  rewrite properties_to_update_dict. intros [= <-].
  rewrite add_scores_lookup_ne.
  - destruct (fixed_properties_lookup
                (default (PStr "N/A") (Py.dict_get "evaluation_notes" entries))) as [-> _].
    by eexists.
  - intros k v _ Hs. by apply (prop_name_not_fixed k v).
Qed.

(** The update built from a rating is never the fallback write. *)
Lemma properties_not_error rating :
  properties_to_update svc rating ≠ Ok error_properties.
Proof. intros [x Hx]%properties_to_update_inv. discriminate Hx. Qed.

Lemma update_notion_page_raise page_id rating e w :
  properties_to_update svc rating = Raise e →
  update_notion_page svc page_id rating w = (Raise e, w, []).
Proof.
  intros Hp. unfold update_notion_page, mbind, prog_mbind, prog_bind, lift.
  by rewrite Hp.
Qed.

Lemma not_failed_fallback_ok e c : ¬ failed_fallback e (Event c None).
Proof. by intros [page_id [=]]. Qed.

Lemma not_failed_fallback_rating e criteria user_prompt ai_response f :
  ¬ failed_fallback e (Event (rating_request svc criteria user_prompt ai_response) f).
Proof. by intros [page_id [=]]. Qed.

Lemma not_failed_fallback_primary e page_id rating properties f :
  properties_to_update svc rating = Ok properties →
  ¬ failed_fallback e (Event (PagesUpdate page_id properties) f).
Proof.
  intros Hp [page_id' [= _ -> _]]. by apply (properties_not_error rating).
Qed.

Lemma failed_fallback_inv {A : Type} e page_id (r : outcome A) :
  failed_fallback e (Event (PagesUpdate page_id error_properties) (failure_of r)) →
  r = Raise e.
Proof. intros [page_id' [= _ H]]. by destruct r as [|e']; [|injection H as ->]. Qed.

Lemma ends_with_last e before page_id :
  ends_with_failed_fallback e
    (before ++ [Event (PagesUpdate page_id error_properties) (Some e)]).
Proof. exists before, (Event (PagesUpdate page_id error_properties) (Some e)).
  split; [done|]. by exists page_id. Qed.

(** A failed fallback write of the writer propagates out of the writer. *)
Lemma update_notion_page_fallback_raises page_id rating w r w' trace e :
  update_notion_page svc page_id rating w = (r, w', trace) →
  Exists (failed_fallback e) trace →
  r = Raise e ∧ ends_with_failed_fallback e trace.
Proof.
  destruct (properties_to_update svc rating) as [properties|e0] eqn:Hp.
  - rewrite (update_notion_page_run _ _ _ _ Hp).
    destruct (pages_update svc page_id properties w) as [[u|e1] w1].
    + intros [= <- <- <-]. rewrite Exists_cons, Exists_nil.
      intros [H|[]]. by apply not_failed_fallback_ok in H.
    + destruct (pages_update svc page_id error_properties w1) as [r2 w2].
      intros [= <- <- <-]. rewrite !Exists_cons, Exists_nil.
      intros [H|[H|[]]].
      * by apply (not_failed_fallback_primary _ _ _ _ _ Hp) in H.
      * apply failed_fallback_inv in H as ->. split; [done|].
        apply (ends_with_last e [_]).
  - rewrite (update_notion_page_raise _ _ _ _ Hp).
    intros [= <- <- <-]. by rewrite Exists_nil.
Qed.

Lemma not_failed_fallback_read e c f :
  is_write c = false → ¬ failed_fallback e (Event c f).
Proof. intros Hc [page_id [= -> _]]. discriminate Hc. Qed.

Lemma ends_with_app e before trace :
  ends_with_failed_fallback e trace → ends_with_failed_fallback e (before ++ trace).
Proof.
  intros (t & ev & -> & H). exists (before ++ t), ev. by rewrite <- app_assoc.
Qed.

(** In the [try] block of the loop a failed fallback write, the writer's
    or the driver's own, is the last thing that happens. *)
Lemma rate_page_fallback_raises criteria page page_id w r w' trace e :
  rate_page svc criteria page page_id w = (r, w', trace) →
  Exists (failed_fallback e) trace →
  r = Raise e ∧ ends_with_failed_fallback e trace.
Proof.
  unfold rate_page, mbind, prog_mbind, prog_bind, lift.
  destruct (plain_text_of page "Prompt" "title") as [user_prompt|e0];
    [|intros [= <- <- <-]; by rewrite Exists_nil].
  destruct (plain_text_of page "AI Response" "rich_text") as [ai_response|e0];
    [|intros [= <- <- <-]; by rewrite Exists_nil].
  rewrite get_rating_from_ai_run.
  destruct (chat_completions_create svc _ _ _ w) as [answer w1].
  set (rating := match answer ≫= rating_of svc with Ok v => v | Raise _ => PNone end).
  destruct (Py.truthy rating).
  - destruct (update_notion_page svc page_id rating w1) as [[r2 w2] t2] eqn:Hu.
    intros [= <- <- <-]. cbn [app]. rewrite Exists_cons.
    intros [H|H]; [by apply not_failed_fallback_rating in H|].
    destruct (update_notion_page_fallback_raises _ _ _ _ _ _ _ Hu H) as [-> Hlast].
    split; [done|]. by apply (ends_with_app e [_]).
  - unfold notion_pages_update, record_call.
    destruct (pages_update svc page_id error_properties w1) as [r2 w2].
    intros [= <- <- <-]. cbn [app]. rewrite !Exists_cons, Exists_nil.
    intros [H|[H|[]]]; [by apply not_failed_fallback_rating in H|].
    apply failed_fallback_inv in H as ->. split; [done|].
    apply (ends_with_last e [_]).
Qed.

(** For one record: a fallback write that fails with an error other than
    [KeyError] and [IndexError] ends the handling of the record with that
    error. *)
Lemma process_page_fallback_raises criteria page w r w' trace e :
  process_page svc criteria page w = (r, w', trace) →
  KeyError_or_IndexError e = false →
  Exists (failed_fallback e) trace →
  r = Raise e ∧ ends_with_failed_fallback e trace.
Proof.
  unfold process_page, mbind, prog_mbind, prog_bind, lift, try_except.
  destruct (Py.getitem page (PStr "id")) as [page_id|e0];
    [|intros [= <- <- <-] _; by rewrite Exists_nil].
  destruct (rate_page svc criteria page page_id w) as [[r1 w1] t1] eqn:Hrate.
  destruct r1 as [u|e1]; cbn [app].
  - intros [= <- <- <-] _ H.
    by destruct (rate_page_fallback_raises _ _ _ _ _ _ _ _ Hrate H).
  - destruct (KeyError_or_IndexError e1) eqn:He1; cbn [app].
    + unfold notion_pages_update, record_call.
      destruct (pages_update svc page_id error_properties w1) as [r2 w2]; cbn [app].
      intros [= <- <- <-] He. rewrite Exists_app, Exists_cons, Exists_nil.
      intros [H|[H|[]]].
      * destruct (rate_page_fallback_raises _ _ _ _ _ _ _ _ Hrate H) as [[= ->] _].
        congruence.
      * apply failed_fallback_inv in H as ->. split; [done|]. apply ends_with_last.
    + intros [= <- <- <-] _ H.
      by destruct (rate_page_fallback_raises _ _ _ _ _ _ _ _ Hrate H).
Qed.

Lemma for_each_fallback_raises criteria pages w r w' trace e :
  for_each pages (process_page svc criteria) w = (r, w', trace) →
  KeyError_or_IndexError e = false →
  Exists (failed_fallback e) trace →
  r = Raise e ∧ ends_with_failed_fallback e trace.
Proof.
  revert w r w' trace.
  induction pages as [|page pages IH]; intros w r w' trace; cbn [for_each].
  - intros [= <- <- <-] _. by rewrite Exists_nil.
  - unfold mbind, prog_mbind, prog_bind.
    destruct (process_page svc criteria page w) as [[r1 w1] t1] eqn:Hpage.
    destruct r1 as [u|e1].
    + destruct (for_each pages (process_page svc criteria) w1) as [[r2 w2] t2] eqn:Hrest.
      intros [= <- <- <-] He. rewrite Exists_app. intros [H|H].
      * by destruct (process_page_fallback_raises _ _ _ _ _ _ _ Hpage He H).
      * destruct (IH _ _ _ _ Hrest He H) as [-> Hlast].
        split; [done|]. by apply ends_with_app.
    + intros [= <- <- <-] He H.
      by apply (process_page_fallback_raises _ _ _ _ _ _ _ Hpage He H).
Qed.

(** A fallback write that fails with [KeyError] or [IndexError] while a
    record is handled either ends the handling of the record with that
    error, or was caught by the handler of the loop, whose own write of
    [Status = Error] is then the last call for the record and decides how
    the handling ends. *)
Lemma process_page_fallback_caught criteria page w r w' trace e :
  process_page svc criteria page w = (r, w', trace) →
  Exists (failed_fallback e) trace →
  r = Raise e ∨
  (KeyError_or_IndexError e = true ∧
   ∃ before page_id,
     trace = before ++ [Event (PagesUpdate page_id error_properties) (failure_of r)] ∧
     Exists (failed_fallback e) before).
Proof.
  unfold process_page, mbind, prog_mbind, prog_bind, lift, try_except.
  destruct (Py.getitem page (PStr "id")) as [page_id|e0];
    [|intros [= <- <- <-]; by rewrite Exists_nil].
  destruct (rate_page svc criteria page page_id w) as [[r1 w1] t1] eqn:Hrate.
  destruct r1 as [u|e1]; cbn [app].
  - intros [= <- <- <-] H.
    by destruct (rate_page_fallback_raises _ _ _ _ _ _ _ _ Hrate H).
  - destruct (KeyError_or_IndexError e1) eqn:He1; cbn [app].
    + unfold notion_pages_update, record_call.
      destruct (pages_update svc page_id error_properties w1) as [r2 w2]; cbn [app].
      intros [= <- <- <-]. rewrite Exists_app, Exists_cons, Exists_nil.
      intros [H|[H|[]]].
      * destruct (rate_page_fallback_raises _ _ _ _ _ _ _ _ Hrate H) as [[= ->] _].
        right. split; [done|]. by exists t1, page_id.
      * apply failed_fallback_inv in H as ->. by left.
    + intros [= <- <- <-] H.
      destruct (rate_page_fallback_raises _ _ _ _ _ _ _ _ Hrate H) as [-> _]. by left.
Qed.

(** C2 (as amended): when the writer's fallback write fails, the exception
    propagates out of [update_notion_page]. When a fallback write, the
    writer's or the driver's, fails during a run with an error other than
    [KeyError] and [IndexError], the exception propagates out of the
    driver's loop: [main] ends with that exception, the failed write is the
    last call of the run, and no later record is processed. A fallback
    write that fails with [KeyError] or [IndexError] while a record is
    handled either ends the handling of the record with that error or was
    caught by the handler of the loop, which then writes [Status = Error]
    once more, as the last call for the record, the outcome of that write
    being the outcome for the record. *)
Theorem fallback_failure_propagates (e : exn) :
  (∀ page_id rating w r w' trace,
     update_notion_page svc page_id rating w = (r, w', trace) →
     Exists (failed_fallback e) trace →
     r = Raise e ∧ ends_with_failed_fallback e trace) ∧
  (∀ w r w' trace,
     main svc RESPONSES_DB_ID STANDARDS_PAGE_ID w = (r, w', trace) →
     KeyError_or_IndexError e = false →
     Exists (failed_fallback e) trace →
     r = Raise e ∧ ends_with_failed_fallback e trace) ∧
  (∀ criteria page w r w' trace,
     process_page svc criteria page w = (r, w', trace) →
     Exists (failed_fallback e) trace →
     r = Raise e ∨
     (KeyError_or_IndexError e = true ∧
      ∃ before page_id,
        trace = before ++ [Event (PagesUpdate page_id error_properties) (failure_of r)] ∧
        Exists (failed_fallback e) before)).
Proof.
  split; [intros *; apply update_notion_page_fallback_raises|].
  split; [|intros *; apply process_page_fallback_caught].
  intros w r w' trace. unfold main, mbind, prog_mbind, prog_bind, lift.
  rewrite get_rating_criteria_run.
  destruct (blocks_children_list svc STANDARDS_PAGE_ID w) as [r0 w0].
  set (criteria := match r0 ≫= criteria_of with Ok v => v | Raise _ => PNone end).
  destruct (negb (Py.truthy criteria)).
  { intros [= <- <- <-] _. cbn [app]. rewrite Exists_cons, Exists_nil.
    intros [H|[]]. by apply not_failed_fallback_read in H. }
  rewrite get_unrated_responses_run.
  destruct (databases_query svc RESPONSES_DB_ID status_filter w0) as [r1 w1].
  set (responses := match r1 ≫= results_of with Ok v => v | Raise _ => PList [] end).
  destruct (negb (Py.truthy responses)).
  { intros [= <- <- <-] _. cbn [app]. rewrite !Exists_cons, Exists_nil.
    intros [H|[H|[]]]; by apply not_failed_fallback_read in H. }
  destruct (Py.iter responses) as [pages|e0].
  - destruct (for_each pages (process_page svc criteria) w1) as [[r2 w2] t2] eqn:Hloop.
    cbn [app]. intros [= <- <- <-] He. rewrite !Exists_cons.
    intros [H|[H|H]]; [by apply not_failed_fallback_read in H..|].
    destruct (for_each_fallback_raises _ _ _ _ _ _ _ Hloop He H) as [-> Hlast].
    split; [done|]. by apply (ends_with_app e [_; _]).
  - intros [= <- <- <-] _. cbn [app]. rewrite !Exists_cons, Exists_nil.
    intros [H|[H|[]]]; by apply not_failed_fallback_read in H.
Qed.

End Properties.

(** * The script on sample data *)

Example title_clarity : prop_name (scripted []) "clarity_score" = "Clarity Score".
Proof. reflexivity. Qed.

Example title_after_digit : prop_name (scripted []) "clarity2x_score" = "Clarity2X Score".
Proof. reflexivity. Qed.

Example strip_spaces : PyStr.strip (" a b " +:+ nl) = "a b".
Proof. reflexivity. Qed.

(** Characters outside ASCII: the title case of the sample tables, the
    whitespace of Unicode. *)
Example title_accented :
  prop_name (scripted []) "précision_score" = "Précision Score".
Proof. reflexivity. Qed.

Example title_sharp_s :
  prop_name (scripted []) "ß_score" = "Ss Score" ∧
  prop_name (scripted []) "ss_score" = "Ss Score".
Proof. split; reflexivity. Qed.

Example strip_unicode_spaces :
  PyStr.strip (of_bytes [194; 160]%nat +:+ " a b " +:+ nl +:+ of_bytes [227; 128; 128]%nat)
  = "a b".
Proof. reflexivity. Qed.

(** A page whose only text is a no-break space (U+00A0) has no criteria. *)
Example no_break_space_criteria_are_absent :
  get_rating_criteria (scripted []) "standards"
    [Reply (block_list [paragraph [of_bytes [194; 160]%nat]])] =
    (Ok PNone, [], [Event (BlocksChildrenList "standards") None]).
Proof. reflexivity. Qed.

(** The write of [Status = Error] after a rating failure raises [KeyError]:
    the handler of the loop catches it and writes once more. *)
Example key_error_of_fallback_is_caught :
  process_page (scripted sample_json) (PStr sample_text) (record "p1" "hi" "hello")
    [ReplyCompletion (completion "{}"); ReplyError KeyError; ReplyDone] =
    (Ok (), [],
     [Event (rating_request (scripted sample_json) (PStr sample_text)
               (PStr "hi") (PStr "hello")) None;
      Event (PagesUpdate (PStr "p1") error_properties) (Some KeyError);
      Event (PagesUpdate (PStr "p1") error_properties) None]).
Proof. vm_compute. reflexivity. Qed.

(** A full run in which every call succeeds. *)
Example main_rates_both_records :
  main (scripted sample_json) "responses" "standards"
    [Reply sample_criteria; Reply two_records;
     ReplyCompletion (completion "rating"); ReplyDone;
     ReplyCompletion (completion "rating"); ReplyDone] =
  (Ok (), [],
   [Event (BlocksChildrenList "standards") None;
    Event (DatabasesQuery "responses" status_filter) None;
    Event (rating_request (scripted sample_json) (PStr sample_text) (PStr "hi") (PStr "hello")) None;
    Event (PagesUpdate (PStr "p1") sample_update) None;
    Event (rating_request (scripted sample_json) (PStr sample_text) (PStr "bye") (PStr "goodbye")) None;
    Event (PagesUpdate (PStr "p2") sample_update) None]).
Proof. vm_compute. reflexivity. Qed.

(** The fetcher hands over the result list of the query as it is. *)
Example get_unrated_responses_returns_results :
  get_unrated_responses (scripted []) "responses" [Reply two_records] =
  (Ok (PList [record "p1" "hi" "hello"; record "p2" "bye" "goodbye"]), [],
   [Event (DatabasesQuery "responses" status_filter) None]).
Proof. reflexivity. Qed.

(** C1, counterexample: the value [true] of the key [ok_score] is not a
    number, and the key contributes the column [Ok Score]. *)
Lemma boolean_score_gets_a_column :
  is_number (PBool true) = false ∧
  properties_to_update (scripted []) (PDict [("ok_score", PBool true)]) =
    Ok (<[ "Ok Score" := number (PBool true) ]>
        (<[ "Evaluation Notes" := rich_text (PStr "N/A") ]>
         {[ "Status" := select "Rated" ]})).
Proof. split; [reflexivity|]. vm_compute. reflexivity. Qed.

(** C10, counterexample: the key [a_score] holds [true], the later key
    [A_score] has the same column name, and the column [A Score] of the
    update carries 5. *)
Lemma later_key_overwrites_boolean :
  prop_name (scripted []) "a_score" = "A Score" ∧
  properties_to_update (scripted []) (PDict [("a_score", PBool true); ("A_score", PInt 5)]) =
    Ok (<[ "A Score" := number (PInt 5) ]>
        (<[ "Evaluation Notes" := rich_text (PStr "N/A") ]>
         {[ "Status" := select "Rated" ]})) ∧
  number (PInt 5) ≠ number (PBool true).
Proof. split; [reflexivity|]. split; [vm_compute; reflexivity|discriminate]. Qed.

(** C10, witness: a boolean score followed by the notes. *)
Lemma bool_score_is_mapped_witness :
  ∃ properties,
    properties_to_update (scripted [])
      (PDict ([] ++ ("ok_score", PBool true) :: [("evaluation_notes", PStr "fine")])) =
      Ok properties ∧
    properties !! prop_name (scripted []) "ok_score" = Some (number (PBool true)) ∧
    ∃ r w' f fallback,
      update_notion_page (scripted []) (PStr "p1")
        (PDict ([] ++ ("ok_score", PBool true) :: [("evaluation_notes", PStr "fine")]))
        [ReplyDone] =
        (r, w', Event (PagesUpdate (PStr "p1") properties) f :: fallback).
Proof.
  apply (bool_score_is_mapped (scripted []) (PStr "p1") []
           [("evaluation_notes", PStr "fine")] "ok_score" true [ReplyDone]).
  - reflexivity.
  - intros k' v' Hin Hs. apply list_elem_of_singleton in Hin.
    injection Hin as -> ->. discriminate Hs.
Defined.

(** C3, counterexample: one paragraph whose only run is a space. The block
    carries a text run, the newline-join is that space, and the loader
    returns [None]. *)
Lemma whitespace_criteria_are_absent :
  Forall2 block_text [paragraph [" "]] [[" "]] ∧
  PyStr.join nl (concat [[" "]]) = " " ∧
  get_rating_criteria (scripted []) "standards" [Reply (block_list [paragraph [" "]])] =
    (Ok PNone, [], [Event (BlocksChildrenList "standards") None]).
Proof.
  split; [|split; reflexivity].
  repeat constructor.
  eapply BlockTextual; [reflexivity..|]. repeat constructor.
Qed.

(** C3, witness: the sample criteria page, two paragraphs around a divider. *)
Lemma get_rating_criteria_join_witness :
  get_rating_criteria (scripted []) "standards" [Reply sample_criteria] =
    (Ok (PStr (PyStr.join nl (concat [["Be clear."; "Be accurate."]; []; ["Be kind."]]))),
     [], [Event (BlocksChildrenList "standards") None]).
Proof.
  apply (get_rating_criteria_join (scripted []) "standards" [Reply sample_criteria] []
           [("object", PStr "list");
            ("results", PList [paragraph ["Be clear."; "Be accurate."]; divider;
                               paragraph ["Be kind."]])]
           [paragraph ["Be clear."; "Be accurate."]; divider; paragraph ["Be kind."]]).
  - reflexivity.
  - reflexivity.
  - constructor; [|constructor; [|constructor; [|constructor]]].
    + eapply BlockTextual; [reflexivity..|]. repeat constructor.
    + eapply BlockNoRichText; reflexivity.
    + eapply BlockTextual; [reflexivity..|]. repeat constructor.
  - intros H%all_space_blank. vm_compute in H. discriminate H.
Defined.

(** C8, witness: the block-list fetch raises. *)
Lemma get_rating_criteria_absent_witness :
  ∃ v w' f,
    get_rating_criteria (scripted []) "standards" [ReplyError (APIError "unavailable")] =
      (Ok v, w', [Event (BlocksChildrenList "standards") f]) ∧
    (v = PNone ↔
     (∃ e, (blocks_children_list (scripted []) "standards"
              [ReplyError (APIError "unavailable")]).1 = Raise e) ∨
     (∃ texts, None = Some texts ∧ blank (PyStr.join nl (concat texts)))).
Proof.
  apply (get_rating_criteria_absent (scripted []) "standards"
           [ReplyError (APIError "unavailable")] None).
  apply FetchFailed.
Defined.




(** C7, witness: the criteria are there and the query finds no record. *)
Lemma main_exits_early_witness :
  ∃ w' trace,
    main (scripted sample_json) "responses" "standards"
      [Reply sample_criteria; Reply (block_list [])] = (Ok (), w', trace) ∧
    Forall (λ ev, is_rating_call (request ev) = false ∧ is_write (request ev) = false)
           trace.
Proof.
  apply (main_exits_early (scripted sample_json) "responses" "standards"
           [Reply sample_criteria; Reply (block_list [])]).
  right. exists (PStr sample_text), [Reply (block_list [])],
    [Event (BlocksChildrenList "standards") None], [],
    [Event (DatabasesQuery "responses" status_filter) None].
  split; reflexivity.
Defined.

(** C2, counterexample: the primary update of the first record fails, and
    so does the fallback write. The exception leaves the writer, and it
    leaves [main]: the run ends there, the second record is never
    processed and the replies meant for it are left unread. *)
Lemma fallback_failure_escapes :
  update_notion_page (scripted sample_json) (PStr "p1") sample_rating
    [ReplyError (APIError "validation"); ReplyError (APIError "unavailable")] =
    (Raise (APIError "unavailable"), [],
     [Event (PagesUpdate (PStr "p1") sample_update) (Some (APIError "validation"));
      Event (PagesUpdate (PStr "p1") error_properties) (Some (APIError "unavailable"))]) ∧
  main (scripted sample_json) "responses" "standards"
    [Reply sample_criteria; Reply two_records;
     ReplyCompletion (completion "rating");
     ReplyError (APIError "validation"); ReplyError (APIError "unavailable");
     ReplyCompletion (completion "rating"); ReplyDone] =
  (Raise (APIError "unavailable"),
   [ReplyCompletion (completion "rating"); ReplyDone],
   [Event (BlocksChildrenList "standards") None;
    Event (DatabasesQuery "responses" status_filter) None;
    Event (rating_request (scripted sample_json) (PStr sample_text) (PStr "hi") (PStr "hello")) None;
    Event (PagesUpdate (PStr "p1") sample_update) (Some (APIError "validation"));
    Event (PagesUpdate (PStr "p1") error_properties) (Some (APIError "unavailable"))]).
Proof. split; vm_compute; reflexivity. Qed.

(** C2, witness: the same run, read through the theorem. *)
Lemma fallback_failure_propagates_witness :
  @Raise () (APIError "unavailable") = Raise (APIError "unavailable") ∧
  ends_with_failed_fallback (APIError "unavailable")
    [Event (BlocksChildrenList "standards") None;
     Event (DatabasesQuery "responses" status_filter) None;
     Event (rating_request (scripted sample_json) (PStr sample_text) (PStr "hi") (PStr "hello")) None;
     Event (PagesUpdate (PStr "p1") sample_update) (Some (APIError "validation"));
     Event (PagesUpdate (PStr "p1") error_properties) (Some (APIError "unavailable"))].
Proof.
  apply (proj1 (proj2 (fallback_failure_propagates (scripted sample_json) "responses"
                         "standards" (APIError "unavailable")))
           [Reply sample_criteria; Reply two_records;
            ReplyCompletion (completion "rating");
            ReplyError (APIError "validation"); ReplyError (APIError "unavailable");
            ReplyCompletion (completion "rating"); ReplyDone]
           (Raise (APIError "unavailable"))
           [ReplyCompletion (completion "rating"); ReplyDone]).
  - vm_compute. reflexivity.
  - reflexivity.
  - do 4 apply Exists_cons_tl. apply Exists_cons_hd. by exists (PStr "p1").
Defined.

(** * Further properties of the script *)

(** ** The start of the script *)


(** ** Column names *)

Lemma snake_char (b : bool) (c : ascii) :
  PyStr.is_ascii c = true → PyStr.is_upper c = false → Ascii.eqb c " " = false →
  let c' := if Ascii.eqb c "_" then " "%char else c in
  PyStr.is_ascii c' = true ∧ PyStr.is_continuation c' = false ∧
  key_of_column (String (if b then PyStr.to_lower c' else PyStr.to_upper c') EmptyString)
  = String c EmptyString.
Proof.
  destruct b; destruct c as [[] [] [] [] [] [] [] []]; vm_compute; try discriminate; done.
Qed.

Lemma key_of_column_app a b :
  key_of_column (a +:+ b) = key_of_column a +:+ key_of_column b.
Proof.
  unfold key_of_column. rewrite <- replace_app. f_equal.
  induction a as [|x a IH]; [done|].
  change (String (PyStr.to_lower x) (lower (a +:+ b)) =
          String (PyStr.to_lower x) (lower a +:+ lower b)). by rewrite IH.
Qed.

Lemma snake_case_split c key :
  is_snake_case (String c key) = true →
  PyStr.is_ascii c = true ∧ PyStr.is_upper c = false ∧ Ascii.eqb c " " = false ∧
  is_snake_case key = true.
Proof.
  cbn [is_snake_case]. intros [[[? ?%negb_true_iff]%andb_prop ?%negb_true_iff]%andb_prop ?]%andb_prop.
  done.
Qed.

Lemma snake_case_starts_character key :
  is_snake_case key = true → starts_character (PyStr.replace "_" " " key).
Proof.
  destruct key as [|c key]; [done|].
  intros (Ha & Hu & Hs & _)%snake_case_split.
  destruct (snake_char false c Ha Hu Hs) as (_ & Hc & _). done.
Qed.

(** On an ASCII snake-case key the column name gives the key back. *)
Lemma key_of_column_title_chars t b before key :
  is_snake_case key = true →
  key_of_column (PyStr.title_chars t b before (PyStr.chars (PyStr.replace "_" " " key)))
  = key.
Proof.
  revert b before. induction key as [|c key IH]; intros b before; [done|].
  intros Hsnake. destruct (snake_case_split _ _ Hsnake) as (Ha & Hu & Hs & Hk).
  destruct (snake_char b c Ha Hu Hs) as (Ha' & _ & Hback).
  cbn [PyStr.replace]. rewrite chars_cons_boundary by by apply snake_case_starts_character.
  cbn [PyStr.title_chars]. rewrite key_of_column_app, IH by done.
  unfold PyStr.char_lower, PyStr.char_title, PyStr.ascii_of_char.
  cbn zeta in Ha'. rewrite Ha'.
  change (String c key) with (String c EmptyString +:+ key). f_equal.
  cbn zeta in Hback. by destruct b.
Qed.

(** X2: on ASCII snake-case keys the column name determines the key:
    lower-casing the column name and putting the underscores back gives the
    key, so two different such keys never share a column. *)
Theorem prop_name_snake_case_injective {W : Type} (svc : services W) (key key' : string) :
  is_snake_case key = true →
  key_of_column (prop_name svc key) = key ∧
  (is_snake_case key' = true → prop_name svc key = prop_name svc key' → key = key').
Proof.
  intros Hk.
  assert (Hback : ∀ k, is_snake_case k = true → key_of_column (prop_name svc k) = k)
    by (intros k; apply key_of_column_title_chars).
  split; [by apply Hback|].
  intros Hk' E. rewrite <- (Hback key Hk), <- (Hback key' Hk'). by rewrite E.
Qed.

(** X3: for a rating object (distinct keys) whose score keys are in ASCII
    snake case, every key that passes the writer's test has its own column,
    and the column carries the value of that key. *)
Theorem snake_case_scores_keep_their_values {W : Type} (svc : services W)
    (entries : list (string * pyval)) (key : string) (value : pyval) :
  NoDup entries.*1 →
  (∀ k v, (k, v) ∈ entries → is_score k v = true → is_snake_case k = true) →
  (key, value) ∈ entries →
  is_score key value = true →
  ∃ properties,
    properties_to_update svc (PDict entries) = Ok properties ∧
    properties !! prop_name svc key = Some (number value) ∧
    ∀ k v, (k, v) ∈ entries → is_score k v = true → k ≠ key →
           prop_name svc k ≠ prop_name svc key.
Proof.
  intros Hnodup Hsnake Hin Hs.
  assert (Hinj : ∀ k v, (k, v) ∈ entries → is_score k v = true →
                        prop_name svc k = prop_name svc key → k = key).
  { intros k v Hk Hsk E.
    rewrite <- (key_of_column_title_chars (unicode svc) false [] k),
      <- (key_of_column_title_chars (unicode svc) false [] key).
    - by rewrite (eq_refl : PyStr.title_chars (unicode svc) false []
                              (PyStr.chars (PyStr.replace "_" " " k)) = prop_name svc k),
        E.
    - by apply (Hsnake key value).
    - by apply (Hsnake k v). }
  eexists. split; [apply properties_to_update_dict|]. split.
  - destruct (list_elem_of_split _ _ Hin) as (before & after & ->).
    apply add_scores_lookup_last; [done|].
    intros k' v' Hin' Hs' E.
    assert (k' = key) as ->.
    { apply (Hinj k' v'); [|done..]. apply elem_of_app. right. by right. }
    rewrite fmap_app, fmap_cons in Hnodup.
    apply NoDup_app in Hnodup as (_ & _ & Hnodup).
    apply NoDup_cons in Hnodup as [Hnot _]. apply Hnot.
    apply list_elem_of_fmap. by exists (key, v').
  - intros k v Hk Hsk Hne E. apply Hne. by apply (Hinj k v).
Qed.

Section MoreProperties.

Context {W : Type}.
Variable svc : services W.
Variable RESPONSES_DB_ID : string.
Variable STANDARDS_PAGE_ID : string.

(** ** The criteria loader, whatever the response *)

Lemma criteria_of_not_blank response v :
  criteria_of response = Ok v →
  v = PNone ∨ ∃ s, v = PStr s ∧ PyStr.all_space s = false.
Proof.
  unfold criteria_of.
  destruct (Py.get response (PStr "results") (PList [])) as [blocks|]; [|done].
  py_cbn. destruct (Py.iter blocks) as [block_list|]; [|done].
  py_cbn. destruct (visit_blocks [] block_list) as [criteria_text|]; [|done].
  py_cbn. destruct (Py.join nl criteria_text) as [full|]; [|done].
  py_cbn. rewrite blank_all_space.
  destruct (PyStr.all_space full) eqn:Hs; intros [= <-]; [by left|].
  right. by exists full.
Qed.

(** X4: whatever the block-list fetch does or answers, the loader makes that
    one call, does not raise, and returns either [None] or a string that is
    not [blank] (it has a character that is not one of Python's whitespace
    characters); what it returns is truthy exactly when it is not [None]. *)
Theorem get_rating_criteria_never_blank (w : W) :
  ∃ v w' f,
    get_rating_criteria svc STANDARDS_PAGE_ID w =
      (Ok v, w', [Event (BlocksChildrenList STANDARDS_PAGE_ID) f]) ∧
    (v = PNone ∨ ∃ s, v = PStr s ∧ ¬ blank s) ∧
    (Py.truthy v = true ↔ v ≠ PNone).
Proof.
  rewrite get_rating_criteria_run.
  destruct (blocks_children_list svc STANDARDS_PAGE_ID w) as [r w1].
  eexists _, _, _. split; [done|].
  assert (H : ∀ v, v = PNone ∨ (∃ s, v = PStr s ∧ PyStr.all_space s = false) →
                   (v = PNone ∨ ∃ s, v = PStr s ∧ ¬ blank s) ∧
                   (Py.truthy v = true ↔ v ≠ PNone)).
  { intros v [->|(s & -> & Hs)]; [split; [by left|done]|]. split.
    - right. exists s. split; [done|]. intros Hb%all_space_blank. congruence.
    - split; [done|]. intros _. by destruct s. }
  apply H. destruct r as [response|e]; [|by left]. py_cbn.
  destruct (criteria_of response) as [v|e] eqn:Hc; [|by left].
  by apply criteria_of_not_blank in Hc.
Qed.

Lemma visit_blocks_without_type criteria_text blocks entries :
  PDict entries ∈ blocks →
  Py.dict_get "type" entries = None →
  ∃ e, visit_blocks criteria_text blocks = Raise e.
Proof.
  intros Hin Hty. revert criteria_text.
  induction blocks as [|block blocks IH]; intros criteria_text.
  - by apply elem_of_nil in Hin.
  - cbn [visit_blocks]. apply elem_of_cons in Hin as [<-|Hin].
    + exists KeyError. unfold visit_block. py_cbn. by rewrite Hty.
    + destruct (visit_block criteria_text block) as [criteria_text'|e]; py_cbn.
      * by apply IH.
      * by exists e.
Qed.

(** X5: one block without a [type] key among the fetched blocks makes the
    loader return [None], whatever text the other blocks carry. *)
Theorem block_without_type_discards_criteria (w w' : W) (response : list (string * pyval))
    (blocks : list pyval) (entries : list (string * pyval)) :
  blocks_children_list svc STANDARDS_PAGE_ID w = (Ok (PDict response), w') →
  Py.dict_get "results" response = Some (PList blocks) →
  PDict entries ∈ blocks →
  Py.dict_get "type" entries = None →
  get_rating_criteria svc STANDARDS_PAGE_ID w =
    (Ok PNone, w', [Event (BlocksChildrenList STANDARDS_PAGE_ID) None]).
Proof.
  intros Hfetch Hres Hin Hty. rewrite get_rating_criteria_run, Hfetch. py_cbn.
  unfold criteria_of. py_cbn. rewrite Hres. py_cbn.
  destruct (visit_blocks_without_type [] blocks entries Hin Hty) as [e ->]. done.
Qed.

(** ** The record fetcher, whatever the response *)

Lemma results_of_iterable response v :
  results_of response = Ok v → ∃ pages, Py.iter v = Ok pages.
Proof.
  unfold results_of.
  destruct response as [| | | | | |entries]; try done.
  py_cbn. destruct (Py.dict_get "results" entries) as [results|]; [|done].
  py_cbn. destruct results; try done; intros [= <-]; by eexists.
Qed.

(** X6: whatever the query does or answers, what the fetcher returns can be
    iterated over: the [for] loop of [main] never fails to start. *)
Theorem get_unrated_responses_iterable (w : W) :
  ∃ v w' f pages,
    get_unrated_responses svc RESPONSES_DB_ID w =
      (Ok v, w', [Event (DatabasesQuery RESPONSES_DB_ID status_filter) f]) ∧
    Py.iter v = Ok pages.
Proof.
  rewrite get_unrated_responses_run.
  destruct (databases_query svc RESPONSES_DB_ID status_filter w) as [[response|e] w1]; py_cbn.
  - destruct (results_of response) as [v|e] eqn:Hr.
    + destruct (results_of_iterable _ _ Hr) as [pages Hp]. by eexists _, _, _, _.
    + by eexists _, _, _, _.
  - by eexists _, _, _, _.
Qed.

(** ** One record *)

(** What the rating engine returns when the chat request answers with a
    text that [json.loads] decodes. *)
Lemma get_rating_from_ai_decoded criteria user_prompt ai_response w w1 text others rating :
  chat_completions_create svc "gpt-4-turbo" (PDict [("type", PStr "json_object")])
    [("system", system_message);
     ("user", master_prompt svc criteria user_prompt ai_response)] w =
    (Ok (ChatCompletion (ChatChoice (ChatMessage (Some text)) :: others)), w1) →
  json_loads svc text = Ok rating →
  get_rating_from_ai svc criteria user_prompt ai_response w =
    (Ok rating, w1, [Event (rating_request svc criteria user_prompt ai_response) None]).
Proof.
  intros Hchat Hjson. rewrite get_rating_from_ai_run, Hchat.
  unfold rating_of. py_cbn. cbn [choices]. rewrite seq_index_first. py_cbn.
  cbn [message content]. by rewrite Hjson.
Qed.

(** A record whose rating is truthy is handed to the writer. *)
Lemma process_page_rated criteria page page_id user_prompt ai_response rating w w1 t1 :
  Py.getitem page (PStr "id") = Ok page_id →
  plain_text_of page "Prompt" "title" = Ok user_prompt →
  plain_text_of page "AI Response" "rich_text" = Ok ai_response →
  get_rating_from_ai svc criteria user_prompt ai_response w = (Ok rating, w1, t1) →
  Py.truthy rating = true →
  process_page svc criteria page w =
  let '(r, w2, t2) := update_notion_page svc page_id rating w1 in
  match r with
  | Raise e =>
      if KeyError_or_IndexError e
      then let '(r', w3) := pages_update svc page_id error_properties w2 in
           (r', w3, (t1 ++ t2) ++ [Event (PagesUpdate page_id error_properties) (failure_of r')])
      else (r, w2, t1 ++ t2)
  | Ok _ => (r, w2, t1 ++ t2)
  end.
Proof.
  intros Hid Hup Har Hrate Htruthy.
  unfold process_page, rate_page, try_except, mbind, prog_mbind, prog_bind, lift,
    notion_pages_update, record_call.
  rewrite Hid, Hup, Har, Hrate, Htruthy.
  destruct (update_notion_page svc page_id rating w1) as [[[u|e] w2] t2]; cbn [app]; [done|].
  destruct (KeyError_or_IndexError e); [|done].
  by destruct (pages_update svc page_id error_properties w2).
Qed.

(** X7: a rating that is truthy and not an object (a JSON array, number or
    string) is handed to the writer, whose [rating_data.get] raises
    [AttributeError]; the driver does not catch it: after the rating
    request no call is made, the record is not marked, and the exception
    leaves the loop body. *)
Theorem non_object_rating_escapes (criteria page page_id user_prompt ai_response : pyval)
    (w w1 : W) (text : string) (others : list chat_choice) (rating : pyval) :
  Py.getitem page (PStr "id") = Ok page_id →
  plain_text_of page "Prompt" "title" = Ok user_prompt →
  plain_text_of page "AI Response" "rich_text" = Ok ai_response →
  chat_completions_create svc "gpt-4-turbo" (PDict [("type", PStr "json_object")])
    [("system", system_message);
     ("user", master_prompt svc criteria user_prompt ai_response)] w =
    (Ok (ChatCompletion (ChatChoice (ChatMessage (Some text)) :: others)), w1) →
  json_loads svc text = Ok rating →
  Py.truthy rating = true →
  (∀ entries, rating ≠ PDict entries) →
  process_page svc criteria page w =
    (Raise AttributeError, w1,
     [Event (rating_request svc criteria user_prompt ai_response) None]).
Proof.
  intros Hid Hup Har Hchat Hjson Htruthy Hnot.
  rewrite (process_page_rated criteria page page_id user_prompt ai_response rating w w1
             [Event (rating_request svc criteria user_prompt ai_response) None]);
    [|done|done|done|by apply (get_rating_from_ai_decoded _ _ _ _ _ text others)|done].
  rewrite (update_notion_page_raise svc page_id rating AttributeError); [done|].
  destruct rating; try done. by destruct (Hnot entries).
Qed.

(** X8: an error of the extraction that the handler does not name, or a
    record without [id], ends the loop at that record: no call is made for
    it, it is not marked, and the records after it are not processed. *)
Theorem unhandled_record_error_aborts (criteria page : pyval) (rest : list pyval)
    (e : exn) (w : W) :
  Py.getitem page (PStr "id") = Raise e ∨
  ((∃ page_id, Py.getitem page (PStr "id") = Ok page_id) ∧
   KeyError_or_IndexError e = false ∧
   (plain_text_of page "Prompt" "title" = Raise e ∨
    ∃ user_prompt,
      plain_text_of page "Prompt" "title" = Ok user_prompt ∧
      plain_text_of page "AI Response" "rich_text" = Raise e)) →
  for_each (page :: rest) (process_page svc criteria) w = (Raise e, w, []).
Proof.
  intros H. cbn [for_each].
  unfold process_page, rate_page, try_except, mbind, prog_mbind, prog_bind, lift.
  destruct H as [->|([page_id ->] & He & [->|(user_prompt & -> & ->)])];
    [done|by rewrite He..].
Qed.

(** X9: a readable record whose rating is a non-empty object, and whose
    update succeeds, is handled by two calls: the rating request, and one
    write of the update built from the rating. *)
Theorem rated_record_is_updated (criteria page page_id user_prompt ai_response : pyval)
    (w w1 w2 : W) (text : string) (others : list chat_choice)
    (entries : list (string * pyval)) (properties : gmap string pyval) :
  Py.getitem page (PStr "id") = Ok page_id →
  plain_text_of page "Prompt" "title" = Ok user_prompt →
  plain_text_of page "AI Response" "rich_text" = Ok ai_response →
  chat_completions_create svc "gpt-4-turbo" (PDict [("type", PStr "json_object")])
    [("system", system_message);
     ("user", master_prompt svc criteria user_prompt ai_response)] w =
    (Ok (ChatCompletion (ChatChoice (ChatMessage (Some text)) :: others)), w1) →
  json_loads svc text = Ok (PDict entries) →
  entries ≠ [] →
  properties_to_update svc (PDict entries) = Ok properties →
  pages_update svc page_id properties w1 = (Ok (), w2) →
  process_page svc criteria page w =
    (Ok (), w2,
     [Event (rating_request svc criteria user_prompt ai_response) None;
      Event (PagesUpdate page_id properties) None]) ∧
  properties !! "Status" = Some (select "Rated").
Proof.
  intros Hid Hup Har Hchat Hjson Hne Hp Hupdate. split.
  - rewrite (process_page_rated criteria page page_id user_prompt ai_response
               (PDict entries) w w1
               [Event (rating_request svc criteria user_prompt ai_response) None]);
      [|done|done|done|by apply (get_rating_from_ai_decoded _ _ _ _ _ text others)
       |by destruct entries].
    by rewrite (update_notion_page_run svc page_id _ properties w1 Hp), Hupdate.
  - rewrite properties_to_update_dict in Hp. injection Hp as <-.
    rewrite add_scores_lookup_ne; [apply fixed_properties_lookup|].
    intros k v _ Hs. by apply (prop_name_not_fixed svc k v).
Qed.

(** X10: when the update of a rated record fails and the fallback write
    succeeds, nothing is raised: the record is handled by the rating
    request, the failed update and the write of [Status = Error], and the
    loop goes on. *)
Theorem failed_update_is_contained (criteria page page_id user_prompt ai_response : pyval)
    (w w1 w2 w3 : W) (text : string) (others : list chat_choice)
    (entries : list (string * pyval)) (properties : gmap string pyval) (e : exn) :
  Py.getitem page (PStr "id") = Ok page_id →
  plain_text_of page "Prompt" "title" = Ok user_prompt →
  plain_text_of page "AI Response" "rich_text" = Ok ai_response →
  chat_completions_create svc "gpt-4-turbo" (PDict [("type", PStr "json_object")])
    [("system", system_message);
     ("user", master_prompt svc criteria user_prompt ai_response)] w =
    (Ok (ChatCompletion (ChatChoice (ChatMessage (Some text)) :: others)), w1) →
  json_loads svc text = Ok (PDict entries) →
  entries ≠ [] →
  properties_to_update svc (PDict entries) = Ok properties →
  pages_update svc page_id properties w1 = (Raise e, w2) →
  pages_update svc page_id error_properties w2 = (Ok (), w3) →
  process_page svc criteria page w =
    (Ok (), w3,
     [Event (rating_request svc criteria user_prompt ai_response) None;
      Event (PagesUpdate page_id properties) (Some e);
      Event (PagesUpdate page_id error_properties) None]).
Proof.
  intros Hid Hup Har Hchat Hjson Hne Hp Hupdate Hfallback.
  rewrite (process_page_rated criteria page page_id user_prompt ai_response
             (PDict entries) w w1
             [Event (rating_request svc criteria user_prompt ai_response) None]);
    [|done|done|done|by apply (get_rating_from_ai_decoded _ _ _ _ _ text others)
     |by destruct entries].
  by rewrite (update_notion_page_run svc page_id _ properties w1 Hp), Hupdate, Hfallback.
Qed.

(** ** The calls made for a record, and by a run *)

Lemma update_notion_page_shape page_id rating w r w' trace :
  update_notion_page svc page_id rating w = (r, w', trace) →
  (length trace ≤ 2)%nat ∧ Forall (writes_to page_id) trace.
Proof.
  destruct (properties_to_update svc rating) as [properties|e] eqn:Hp.
  - rewrite (update_notion_page_run svc _ _ _ _ Hp).
    destruct (pages_update svc page_id properties w) as [[u|e1] w1].
    + intros [= <- <- <-]. split; [simpl; lia|]. repeat constructor. by eexists.
    + destruct (pages_update svc page_id error_properties w1) as [r2 w2].
      intros [= <- <- <-]. split; [simpl; lia|]. repeat constructor; by eexists.
  - rewrite (update_notion_page_raise svc _ _ _ _ Hp).
    intros [= <- <- <-]. split; [simpl; lia|constructor].
Qed.

Lemma rate_page_shape criteria page page_id w r w' trace :
  rate_page svc criteria page page_id w = (r, w', trace) →
  ∃ requests marks,
    trace = requests ++ marks ∧
    (length requests ≤ 1)%nat ∧
    Forall (λ ev, is_rating_call (request ev) = true) requests ∧
    (length marks ≤ 2)%nat ∧
    Forall (writes_to page_id) marks.
Proof.
  unfold rate_page, mbind, prog_mbind, prog_bind, lift.
  destruct (plain_text_of page "Prompt" "title") as [user_prompt|e0];
    [|intros [= <- <- <-]; exists [], []; repeat split; simpl; (lia || constructor)].
  destruct (plain_text_of page "AI Response" "rich_text") as [ai_response|e0];
    [|intros [= <- <- <-]; exists [], []; repeat split; simpl; (lia || constructor)].
  rewrite get_rating_from_ai_run.
  destruct (chat_completions_create svc _ _ _ w) as [answer w1].
  set (rating := match answer ≫= rating_of svc with Ok v => v | Raise _ => PNone end).
  destruct (Py.truthy rating).
  - destruct (update_notion_page svc page_id rating w1) as [[r2 w2] t2] eqn:Hu.
    destruct (update_notion_page_shape _ _ _ _ _ _ Hu) as [Hlen Hall].
    intros [= <- <- <-]. eexists [_], t2. split; [done|].
    split; [simpl; lia|]. split; [by repeat constructor|done].
  - unfold notion_pages_update, record_call.
    destruct (pages_update svc page_id error_properties w1) as [r2 w2].
    intros [= <- <- <-]. eexists [_], [_]. split; [done|].
    split; [simpl; lia|]. split; [by repeat constructor|].
    split; [simpl; lia|]. repeat constructor. by eexists.
Qed.

Lemma process_page_shape criteria page w r w' trace :
  process_page svc criteria page w = (r, w', trace) →
  ∃ requests marks,
    trace = requests ++ marks ∧
    (length requests ≤ 1)%nat ∧
    Forall (λ ev, is_rating_call (request ev) = true) requests ∧
    (length marks ≤ 3)%nat ∧
    Forall (λ ev, ∃ page_id, Py.getitem page (PStr "id") = Ok page_id ∧
                             writes_to page_id ev) marks.
Proof.
  unfold process_page, mbind, prog_mbind, prog_bind, lift, try_except.
  destruct (Py.getitem page (PStr "id")) as [page_id|e0];
    [|intros [= <- <- <-]; exists [], []; repeat split; simpl; (lia || constructor)].
  destruct (rate_page svc criteria page page_id w) as [[r1 w1] t1] eqn:Hrate.
  destruct (rate_page_shape _ _ _ _ _ _ _ Hrate)
    as (requests & marks & -> & Hreq & Hrating & Hlen & Hmarks).
  assert (Hmarks' : Forall (λ ev, ∃ page_id0, Ok page_id = Ok page_id0 ∧
                                              writes_to page_id0 ev) marks).
  { eapply Forall_impl; [done|]. intros ev Hev. by exists page_id. }
  destruct r1 as [u|e1]; cbn [app].
  - intros [= <- <- <-]. exists requests, marks. repeat split; (done || lia).
  - destruct (KeyError_or_IndexError e1); cbn [app].
    + unfold notion_pages_update, record_call.
      destruct (pages_update svc page_id error_properties w1) as [r2 w2]; cbn [app].
      intros [= <- <- <-]. eexists requests, (marks ++ [_]).
      split; [by rewrite app_assoc|]. split; [done|]. split; [done|].
      split; [rewrite length_app; simpl; lia|].
      apply Forall_app. split; [done|]. repeat constructor.
      exists page_id. split; [done|]. by eexists.
    + intros [= <- <- <-]. exists requests, marks. repeat split; (done || lia).
Qed.

(** X11: the calls made for one record are at most one rating request,
    followed by at most three writes, each of them to the record whose [id]
    was read: a record is never rated twice, and no other record is
    written to. *)
Theorem record_calls_are_its_own (criteria page : pyval) (w w' : W) (r : outcome ())
    (trace : list event) :
  process_page svc criteria page w = (r, w', trace) →
  ∃ requests marks,
    trace = requests ++ marks ∧
    (length requests ≤ 1)%nat ∧
    Forall (λ ev, is_rating_call (request ev) = true) requests ∧
    (length marks ≤ 3)%nat ∧
    Forall (λ ev, ∃ page_id, Py.getitem page (PStr "id") = Ok page_id ∧
                             writes_to page_id ev) marks.
Proof. apply process_page_shape. Qed.

Lemma rating_requests_app t1 t2 :
  rating_requests (t1 ++ t2) = rating_requests t1 ++ rating_requests t2.
Proof. apply List.filter_app. Qed.

Lemma writes_app t1 t2 : writes (t1 ++ t2) = writes t1 ++ writes t2.
Proof. apply List.filter_app. Qed.

Lemma rating_requests_length trace : (length (rating_requests trace) ≤ length trace)%nat.
Proof. apply List.filter_length_le. Qed.

Lemma writes_length trace : (length (writes trace) ≤ length trace)%nat.
Proof. apply List.filter_length_le. Qed.

Lemma rating_requests_of_writes trace :
  Forall (λ ev, is_write (request ev) = true) trace → rating_requests trace = [].
Proof.
  induction 1 as [|ev trace Hev _ IH]; [done|].
  unfold rating_requests in *. cbn [List.filter]. rewrite IH.
  by destruct (request ev).
Qed.

Lemma writes_of_rating_requests trace :
  Forall (λ ev, is_rating_call (request ev) = true) trace → writes trace = [].
Proof.
  induction 1 as [|ev trace Hev _ IH]; [done|].
  unfold writes in *. cbn [List.filter]. rewrite IH.
  by destruct (request ev).
Qed.

Lemma process_page_counts criteria page w r w' trace :
  process_page svc criteria page w = (r, w', trace) →
  (length (rating_requests trace) ≤ 1)%nat ∧ (length (writes trace) ≤ 3)%nat ∧
  Forall (λ ev, is_rating_call (request ev) || is_write (request ev) = true) trace.
Proof.
  intros (requests & marks & -> & Hreq & Hrating & Hlen & Hmarks)%process_page_shape.
  assert (Hw : Forall (λ ev, is_write (request ev) = true) marks).
  { eapply Forall_impl; [done|]. by intros ev (page_id & _ & properties & ->). }
  rewrite rating_requests_app, writes_app, !length_app.
  rewrite (rating_requests_of_writes marks Hw), (writes_of_rating_requests requests Hrating).
  pose proof (rating_requests_length requests). pose proof (writes_length marks).
  split; [simpl; lia|]. split; [simpl; lia|].
  apply Forall_app. split.
  - eapply Forall_impl; [done|]. by intros ev ->.
  - eapply Forall_impl; [exact Hw|]. intros ev ->. apply orb_true_r.
Qed.

Lemma for_each_counts criteria pages w r w' trace :
  for_each pages (process_page svc criteria) w = (r, w', trace) →
  (length (rating_requests trace) ≤ length pages)%nat ∧
  (length (writes trace) ≤ 3 * length pages)%nat ∧
  Forall (λ ev, is_rating_call (request ev) || is_write (request ev) = true) trace.
Proof.
  revert w r w' trace.
  induction pages as [|page pages IH]; intros w r w' trace; cbn [for_each].
  - intros [= <- <- <-]. split; [done|]. split; [done|constructor].
  - unfold mbind, prog_mbind, prog_bind.
    destruct (process_page svc criteria page w) as [[r1 w1] t1] eqn:Hpage.
    destruct (process_page_counts _ _ _ _ _ _ Hpage) as (H1 & H2 & H3).
    destruct r1 as [u|e1].
    + destruct (for_each pages (process_page svc criteria) w1) as [[r2 w2] t2] eqn:Hrest.
      destruct (IH _ _ _ _ Hrest) as (H4 & H5 & H6).
      intros [= <- <- <-]. rewrite rating_requests_app, writes_app, !length_app.
      split; [simpl; lia|]. split; [simpl; lia|]. by apply Forall_app.
    + intros [= <- <- <-]. split; [simpl; lia|]. split; [simpl; lia|done].
Qed.

(** X12: the loop never retries: over the fetched records it makes at most
    one rating request per record and at most three writes per record. *)
Theorem no_retries (criteria : pyval) (pages : list pyval) (w w' : W) (r : outcome ())
    (trace : list event) :
  for_each pages (process_page svc criteria) w = (r, w', trace) →
  (length (rating_requests trace) ≤ length pages)%nat ∧
  (length (writes trace) ≤ 3 * length pages)%nat.
Proof.
  intros H. destruct (for_each_counts _ _ _ _ _ _ H) as (H1 & H2 & _). done.
Qed.

(** What the loader returns is [None] or truthy. *)
Lemma criteria_none_or_truthy (r0 : outcome pyval) :
  let criteria := match r0 ≫= criteria_of with Ok v => v | Raise _ => PNone end in
  criteria = PNone ∨ Py.truthy criteria = true.
Proof.
  destruct r0 as [response|e]; [|by left]. py_cbn.
  destruct (criteria_of response) as [v|e] eqn:Hc; [|by left].
  apply criteria_of_not_blank in Hc as [->|(s & -> & Hs)]; [by left|].
  right. by destruct s.
Qed.

Lemma main_trace_shape (w w' : W) (r : outcome ()) (trace : list event) :
  main svc RESPONSES_DB_ID STANDARDS_PAGE_ID w = (r, w', trace) →
  ∃ f rest,
    trace = Event (BlocksChildrenList STANDARDS_PAGE_ID) f :: rest ∧
    ((∃ w1 t1, get_rating_criteria svc STANDARDS_PAGE_ID w = (Ok PNone, w1, t1)) →
     rest = [] ∧ r = Ok ()) ∧
    (∀ v w1 t1,
       get_rating_criteria svc STANDARDS_PAGE_ID w = (Ok v, w1, t1) → v ≠ PNone →
       ∃ g calls,
         rest = Event (DatabasesQuery RESPONSES_DB_ID status_filter) g :: calls ∧
         Forall (λ ev, is_rating_call (request ev) || is_write (request ev) = true) calls) ∧
    (rest = [] ∨
     ∃ g calls,
       rest = Event (DatabasesQuery RESPONSES_DB_ID status_filter) g :: calls ∧
       Forall (λ ev, is_rating_call (request ev) || is_write (request ev) = true) calls).
Proof.
  unfold main, mbind, prog_mbind, prog_bind, lift.
  rewrite get_rating_criteria_run.
  destruct (blocks_children_list svc STANDARDS_PAGE_ID w) as [r0 w0].
  pose proof (criteria_none_or_truthy r0) as Hcrit. cbn zeta in Hcrit.
  set (criteria := match r0 ≫= criteria_of with Ok v => v | Raise _ => PNone end) in *.
  destruct (Py.truthy criteria) eqn:Hc; cbn [negb].
  2:{ destruct Hcrit as [Hcrit|Hcrit]; [|discriminate Hcrit].
      intros [= <- <- <-]. eexists _, []. split; [done|]. split; [done|].
      split; [|by left]. intros v w1 t1 [= <- _ _] Hv. by destruct Hv. }
  rewrite get_unrated_responses_run.
  destruct (databases_query svc RESPONSES_DB_ID status_filter w0) as [r1 w1].
  set (responses := match r1 ≫= results_of with Ok v => v | Raise _ => PList [] end).
  assert (Hnone : (∃ w2 t2, (Ok criteria, w0,
                     [Event (BlocksChildrenList STANDARDS_PAGE_ID) (failure_of r0)]) =
                     (Ok PNone, w2, t2)) → False).
  { intros (w2 & t2 & [= E _ _]). rewrite E in Hc. discriminate Hc. }
  destruct (negb (Py.truthy responses)).
  { intros [= <- <- <-]. cbn [app]. eexists _, [_]. split; [done|].
    split; [by intros ?%Hnone|].
    split; [intros ? ? ? _ _|right]; (eexists _, []; split; [done|constructor]). }
  destruct (Py.iter responses) as [pages|e0].
  - destruct (for_each pages (process_page svc criteria) w1) as [[r2 w2] t2] eqn:Hloop.
    destruct (for_each_counts _ _ _ _ _ _ Hloop) as (_ & _ & Hall).
    cbn [app]. intros [= <- <- <-]. eexists _, (_ :: t2). split; [done|].
    split; [by intros ?%Hnone|].
    split; [intros ? ? ? _ _|right]; by eexists _, t2.
  - intros [= <- <- <-]. cbn [app]. eexists _, [_]. split; [done|].
    split; [by intros ?%Hnone|].
    split; [intros ? ? ? _ _|right]; (eexists _, []; split; [done|constructor]).
Qed.

(** X13: the order of the calls of a run. The first call is the block-list
    fetch of the criteria page. When the loader gives [None] it is the only
    call: the record store is not queried, and [main] returns normally. When
    the loader gives criteria, the second call is the filtered query, and
    every call after it is a rating request or a write. *)
Theorem main_call_order (w w' : W) (r : outcome ()) (trace : list event) :
  main svc RESPONSES_DB_ID STANDARDS_PAGE_ID w = (r, w', trace) →
  ∃ f rest,
    trace = Event (BlocksChildrenList STANDARDS_PAGE_ID) f :: rest ∧
    ((∃ w1 t1, get_rating_criteria svc STANDARDS_PAGE_ID w = (Ok PNone, w1, t1)) →
     rest = [] ∧ r = Ok ()) ∧
    (∀ v w1 t1,
       get_rating_criteria svc STANDARDS_PAGE_ID w = (Ok v, w1, t1) → v ≠ PNone →
       ∃ g calls,
         rest = Event (DatabasesQuery RESPONSES_DB_ID status_filter) g :: calls ∧
         Forall (λ ev, is_rating_call (request ev) || is_write (request ev) = true) calls) ∧
    (rest = [] ∨
     ∃ g calls,
       rest = Event (DatabasesQuery RESPONSES_DB_ID status_filter) g :: calls ∧
       Forall (λ ev, is_rating_call (request ev) || is_write (request ev) = true) calls).
Proof. apply main_trace_shape. Qed.

(** X14: the writer raises on a rating object only when both of its writes
    raised, the exception being that of the fallback write: a failure of
    the primary update alone never leaves the writer. *)
Theorem writer_raises_only_with_fallback (page_id : pyval)
    (entries : list (string * pyval)) (w w' : W) (e : exn) (trace : list event) :
  update_notion_page svc page_id (PDict entries) w = (Raise e, w', trace) →
  ∃ properties e1 w1,
    properties_to_update svc (PDict entries) = Ok properties ∧
    pages_update svc page_id properties w = (Raise e1, w1) ∧
    pages_update svc page_id error_properties w1 = (Raise e, w') ∧
    trace = [Event (PagesUpdate page_id properties) (Some e1);
             Event (PagesUpdate page_id error_properties) (Some e)].
Proof.
  rewrite (update_notion_page_run svc page_id _ _ w (properties_to_update_dict svc entries)).
  destruct (pages_update svc page_id _ w) as [[u|e1] w1] eqn:H1; [done|].
  destruct (pages_update svc page_id error_properties w1) as [[u|e2] w2] eqn:H2; [done|].
  intros [= <- <- <-]. eexists _, e1, w1. split; [apply properties_to_update_dict|].
  done.
Qed.

End MoreProperties.

(** X15: with the four variables set and both constructors succeeding, the
    script runs [main] with the clients built from the two keys, on what the
    two identifiers name: its first call fetches the blocks of the page
    [NOTION_STANDARDS_PAGE_ID], and the query, if one is made, is the second
    call and goes to the database [NOTION_RESPONSES_DB_ID]. *)
Theorem script_uses_configuration {W N O : Type} (Client : string → outcome N)
    (OpenAI : string → outcome O) (services_of : N → O → services W)
    (environ : gmap string string) (page_id db_id notion_key openai_key : string)
    (notion : N) (openai : O)
    (w w' : W) (ending : script_end) (trace : list event) :
  environ !! "NOTION_API_KEY" = Some notion_key →
  Client notion_key = Ok notion →
  environ !! "OPENAI_API_KEY" = Some openai_key →
  OpenAI openai_key = Ok openai →
  environ !! "NOTION_RESPONSES_DB_ID" = Some db_id →
  environ !! "NOTION_STANDARDS_PAGE_ID" = Some page_id →
  script Client OpenAI services_of environ w = (ending, w', trace) →
  ∃ r f rest,
    ending = Finished r ∧
    main (services_of notion openai) db_id page_id w = (r, w', trace) ∧
    trace = Event (BlocksChildrenList page_id) f :: rest ∧
    (rest = [] ∨
     ∃ g calls,
       rest = Event (DatabasesQuery db_id status_filter) g :: calls ∧
       Forall (λ ev, is_rating_call (request ev) || is_write (request ev) = true) calls).
Proof.
  intros Ha Hn Hb Ho Hc Hd. unfold script, setup. rewrite Ha, Hn, Hb, Ho, Hc, Hd.
  cbn [notion_client openai_client responses_db_id standards_page_id].
  destruct (main (services_of notion openai) db_id page_id w) as [[r w1] t] eqn:Hmain.
  intros [= <- <- <-].
  destruct (main_trace_shape _ _ _ _ _ _ _ Hmain) as (f & rest & -> & _ & _ & Hrest).
  by exists r, f, rest.
Qed.

(** * The further properties on sample data *)

(** X1 on the sample environment, on one without the OpenAI key, and on one
    whose OpenAI key is empty. *)
Example setup_sample_environment :
  setup sample_Client sample_OpenAI sample_environ =
    SetupDone (Config "secret_n" "secret_o" "responses" "standards") ∧
  setup sample_Client sample_OpenAI (delete "OPENAI_API_KEY" sample_environ) =
    SetupExit (Some "OPENAI_API_KEY") ∧
  setup sample_Client sample_OpenAI (<[ "OPENAI_API_KEY" := "" ]> sample_environ) =
    SetupError (APIError "the api_key must be set").
Proof. repeat split; vm_compute; reflexivity. Qed.

(** X2, witness. *)
Lemma prop_name_snake_case_injective_witness :
  key_of_column (prop_name (scripted []) "clarity_score") = "clarity_score" ∧
  (is_snake_case "accuracy_score" = true →
   prop_name (scripted []) "clarity_score" = prop_name (scripted []) "accuracy_score" →
   "clarity_score" = "accuracy_score").
Proof.
  apply (prop_name_snake_case_injective (scripted []) "clarity_score" "accuracy_score").
  reflexivity.
Defined.

(** X3, witness: the rating of the example. *)
Lemma snake_case_scores_keep_their_values_witness :
  ∃ properties,
    properties_to_update (scripted [])
      (PDict [("clarity_score", PInt 4); ("accuracy_score", PInt 5);
              ("evaluation_notes", PStr "ok")]) = Ok properties ∧
    properties !! prop_name (scripted []) "clarity_score" = Some (number (PInt 4)) ∧
    ∀ k v, (k, v) ∈ [("clarity_score", PInt 4); ("accuracy_score", PInt 5);
                     ("evaluation_notes", PStr "ok")] →
           is_score k v = true → k ≠ "clarity_score" →
           prop_name (scripted []) k ≠ prop_name (scripted []) "clarity_score".
Proof.
  apply (snake_case_scores_keep_their_values (scripted [])
           [("clarity_score", PInt 4); ("accuracy_score", PInt 5);
            ("evaluation_notes", PStr "ok")] "clarity_score" (PInt 4)).
  - apply (bool_decide_unpack _). vm_compute. exact I.
  - intros k v Hin Hs. rewrite !elem_of_cons, elem_of_nil in Hin.
    destruct Hin as [[= -> ->]|[[= -> ->]|[[= -> ->]|[]]]]; reflexivity.
  - by left.
  - reflexivity.
Defined.

(** X5, witness: a paragraph with text, then a block without [type]. *)
Lemma block_without_type_discards_criteria_witness :
  get_rating_criteria (scripted []) "standards"
    [Reply (block_list [paragraph ["Be clear."]; PDict [("object", PStr "block")]])] =
    (Ok PNone, [], [Event (BlocksChildrenList "standards") None]).
Proof.
  apply (block_without_type_discards_criteria (scripted []) "standards"
           [Reply (block_list [paragraph ["Be clear."]; PDict [("object", PStr "block")]])]
           []
           [("object", PStr "list");
            ("results", PList [paragraph ["Be clear."]; PDict [("object", PStr "block")]])]
           [paragraph ["Be clear."]; PDict [("object", PStr "block")]]
           [("object", PStr "block")]).
  - reflexivity.
  - reflexivity.
  - right. by left.
  - reflexivity.
Defined.

(** X7, witness: the chat service answers with a JSON array. *)
Lemma non_object_rating_escapes_witness :
  process_page (scripted [("[1]", PList [PInt 1])]) (PStr sample_text)
    (record "p1" "hi" "hello") [ReplyCompletion (completion "[1]"); ReplyDone] =
    (Raise AttributeError, [ReplyDone],
     [Event (rating_request (scripted [("[1]", PList [PInt 1])]) (PStr sample_text)
               (PStr "hi") (PStr "hello")) None]).
Proof.
  apply (non_object_rating_escapes (scripted [("[1]", PList [PInt 1])]) (PStr sample_text)
           (record "p1" "hi" "hello") (PStr "p1") (PStr "hi") (PStr "hello")
           [ReplyCompletion (completion "[1]"); ReplyDone] [ReplyDone]
           "[1]" [] (PList [PInt 1])).
  - reflexivity.
  - reflexivity.
  - reflexivity.
  - reflexivity.
  - reflexivity.
  - reflexivity.
  - discriminate.
Defined.

(** X8, witness: the title of the first record is [None]; subscripting it
    raises [TypeError], and the second record is never looked at. *)
Lemma unhandled_record_error_aborts_witness :
  for_each
    [PDict [("id", PStr "p1");
            ("properties", PDict [("Prompt", PDict [("title", PNone)])])];
     record "p2" "bye" "goodbye"]
    (process_page (scripted sample_json) (PStr sample_text))
    [ReplyCompletion (completion "rating"); ReplyDone] =
    (Raise TypeError, [ReplyCompletion (completion "rating"); ReplyDone], []).
Proof.
  apply (unhandled_record_error_aborts (scripted sample_json) (PStr sample_text)
           (PDict [("id", PStr "p1");
                   ("properties", PDict [("Prompt", PDict [("title", PNone)])])])
           [record "p2" "bye" "goodbye"] TypeError
           [ReplyCompletion (completion "rating"); ReplyDone]).
  right. split; [by exists (PStr "p1")|]. split; [reflexivity|]. left. reflexivity.
Defined.

(** X9, witness: the rating of the example, written at once. *)
Lemma rated_record_is_updated_witness :
  process_page (scripted sample_json) (PStr sample_text) (record "p1" "hi" "hello")
    [ReplyCompletion (completion "rating"); ReplyDone] =
    (Ok (), [],
     [Event (rating_request (scripted sample_json) (PStr sample_text)
               (PStr "hi") (PStr "hello")) None;
      Event (PagesUpdate (PStr "p1") sample_update) None]) ∧
  sample_update !! "Status" = Some (select "Rated").
Proof.
  apply (rated_record_is_updated (scripted sample_json) (PStr sample_text)
           (record "p1" "hi" "hello") (PStr "p1") (PStr "hi") (PStr "hello")
           [ReplyCompletion (completion "rating"); ReplyDone] [ReplyDone] []
           "rating" []
           [("clarity_score", PInt 4); ("accuracy_score", PInt 5);
            ("evaluation_notes", PStr "ok")]
           sample_update).
  - reflexivity.
  - reflexivity.
  - reflexivity.
  - reflexivity.
  - reflexivity.
  - discriminate.
  - vm_compute. reflexivity.
  - reflexivity.
Defined.

(** X10, witness: the update is refused, the fallback write goes through. *)
Lemma failed_update_is_contained_witness :
  process_page (scripted sample_json) (PStr sample_text) (record "p1" "hi" "hello")
    [ReplyCompletion (completion "rating"); ReplyError (APIError "validation"); ReplyDone] =
    (Ok (), [],
     [Event (rating_request (scripted sample_json) (PStr sample_text)
               (PStr "hi") (PStr "hello")) None;
      Event (PagesUpdate (PStr "p1") sample_update) (Some (APIError "validation"));
      Event (PagesUpdate (PStr "p1") error_properties) None]).
Proof.
  apply (failed_update_is_contained (scripted sample_json) (PStr sample_text)
           (record "p1" "hi" "hello") (PStr "p1") (PStr "hi") (PStr "hello")
           [ReplyCompletion (completion "rating"); ReplyError (APIError "validation");
            ReplyDone]
           [ReplyError (APIError "validation"); ReplyDone] [ReplyDone] []
           "rating" []
           [("clarity_score", PInt 4); ("accuracy_score", PInt 5);
            ("evaluation_notes", PStr "ok")]
           sample_update (APIError "validation")).
  - reflexivity.
  - reflexivity.
  - reflexivity.
  - reflexivity.
  - reflexivity.
  - discriminate.
  - vm_compute. reflexivity.
  - reflexivity.
  - reflexivity.
Defined.

(** X11, witness: the record whose update is refused. *)
Lemma record_calls_are_its_own_witness :
  ∃ requests marks,
    [Event (rating_request (scripted sample_json) (PStr sample_text)
              (PStr "hi") (PStr "hello")) None;
     Event (PagesUpdate (PStr "p1") sample_update) (Some (APIError "validation"));
     Event (PagesUpdate (PStr "p1") error_properties) None] = requests ++ marks ∧
    (length requests ≤ 1)%nat ∧
    Forall (λ ev, is_rating_call (request ev) = true) requests ∧
    (length marks ≤ 3)%nat ∧
    Forall (λ ev, ∃ page_id,
              Py.getitem (record "p1" "hi" "hello") (PStr "id") = Ok page_id ∧
              writes_to page_id ev) marks.
Proof.
  apply (record_calls_are_its_own (scripted sample_json) (PStr sample_text)
           (record "p1" "hi" "hello")
           [ReplyCompletion (completion "rating"); ReplyError (APIError "validation");
            ReplyDone] [] (Ok ())).
  vm_compute. reflexivity.
Defined.

(** X12, witness: two records, two rating requests, two writes. *)
Lemma no_retries_witness :
  (length (rating_requests
     [Event (rating_request (scripted sample_json) (PStr sample_text)
               (PStr "hi") (PStr "hello")) None;
      Event (PagesUpdate (PStr "p1") sample_update) None;
      Event (rating_request (scripted sample_json) (PStr sample_text)
               (PStr "bye") (PStr "goodbye")) None;
      Event (PagesUpdate (PStr "p2") sample_update) None])
   ≤ length [record "p1" "hi" "hello"; record "p2" "bye" "goodbye"])%nat ∧
  (length (writes
     [Event (rating_request (scripted sample_json) (PStr sample_text)
               (PStr "hi") (PStr "hello")) None;
      Event (PagesUpdate (PStr "p1") sample_update) None;
      Event (rating_request (scripted sample_json) (PStr sample_text)
               (PStr "bye") (PStr "goodbye")) None;
      Event (PagesUpdate (PStr "p2") sample_update) None])
   ≤ 3 * length [record "p1" "hi" "hello"; record "p2" "bye" "goodbye"])%nat.
Proof.
  apply (no_retries (scripted sample_json) (PStr sample_text)
           [record "p1" "hi" "hello"; record "p2" "bye" "goodbye"]
           [ReplyCompletion (completion "rating"); ReplyDone;
            ReplyCompletion (completion "rating"); ReplyDone] [] (Ok ())).
  vm_compute. reflexivity.
Defined.

(** X13, witness: the run that rates both records. *)
Lemma main_call_order_witness :
  ∃ f rest,
    [Event (BlocksChildrenList "standards") None;
     Event (DatabasesQuery "responses" status_filter) None;
     Event (rating_request (scripted sample_json) (PStr sample_text)
              (PStr "hi") (PStr "hello")) None;
     Event (PagesUpdate (PStr "p1") sample_update) None;
     Event (rating_request (scripted sample_json) (PStr sample_text)
              (PStr "bye") (PStr "goodbye")) None;
     Event (PagesUpdate (PStr "p2") sample_update) None] =
      Event (BlocksChildrenList "standards") f :: rest ∧
    ((∃ w1 t1,
        get_rating_criteria (scripted sample_json) "standards"
          [Reply sample_criteria; Reply two_records;
           ReplyCompletion (completion "rating"); ReplyDone;
           ReplyCompletion (completion "rating"); ReplyDone] = (Ok PNone, w1, t1)) →
     rest = [] ∧ Ok () = Ok ()) ∧
    (∀ v w1 t1,
       get_rating_criteria (scripted sample_json) "standards"
         [Reply sample_criteria; Reply two_records;
          ReplyCompletion (completion "rating"); ReplyDone;
          ReplyCompletion (completion "rating"); ReplyDone] = (Ok v, w1, t1) →
       v ≠ PNone →
       ∃ g calls,
         rest = Event (DatabasesQuery "responses" status_filter) g :: calls ∧
         Forall (λ ev, is_rating_call (request ev) || is_write (request ev) = true) calls) ∧
    (rest = [] ∨
     ∃ g calls,
       rest = Event (DatabasesQuery "responses" status_filter) g :: calls ∧
       Forall (λ ev, is_rating_call (request ev) || is_write (request ev) = true) calls).
Proof.
  apply (main_call_order (scripted sample_json) "responses" "standards"
           [Reply sample_criteria; Reply two_records;
            ReplyCompletion (completion "rating"); ReplyDone;
            ReplyCompletion (completion "rating"); ReplyDone] [] (Ok ())).
  vm_compute. reflexivity.
Defined.

(** X14, witness: both writes of the writer are refused. *)
Lemma writer_raises_only_with_fallback_witness :
  ∃ properties e1 w1,
    properties_to_update (scripted sample_json)
      (PDict [("clarity_score", PInt 4); ("accuracy_score", PInt 5);
              ("evaluation_notes", PStr "ok")]) = Ok properties ∧
    pages_update (scripted sample_json) (PStr "p1") properties
      [ReplyError (APIError "validation"); ReplyError (APIError "unavailable")] =
      (Raise e1, w1) ∧
    pages_update (scripted sample_json) (PStr "p1") error_properties w1 =
      (Raise (APIError "unavailable"), []) ∧
    [Event (PagesUpdate (PStr "p1") sample_update) (Some (APIError "validation"));
     Event (PagesUpdate (PStr "p1") error_properties) (Some (APIError "unavailable"))] =
    [Event (PagesUpdate (PStr "p1") properties) (Some e1);
     Event (PagesUpdate (PStr "p1") error_properties) (Some (APIError "unavailable"))].
Proof.
  apply (writer_raises_only_with_fallback (scripted sample_json) (PStr "p1")
           [("clarity_score", PInt 4); ("accuracy_score", PInt 5);
            ("evaluation_notes", PStr "ok")]
           [ReplyError (APIError "validation"); ReplyError (APIError "unavailable")]
           [] (APIError "unavailable")).
  vm_compute. reflexivity.
Defined.

(** X15, witness: the sample environment, and a database with no record to
    rate. *)
Lemma script_uses_configuration_witness :
  ∃ r f rest,
    Finished (Ok ()) = Finished r ∧
    main (sample_services sample_json "secret_n" "secret_o") "responses" "standards"
      [Reply sample_criteria; Reply (block_list [])] =
      (r, [],
       [Event (BlocksChildrenList "standards") None;
        Event (DatabasesQuery "responses" status_filter) None]) ∧
    [Event (BlocksChildrenList "standards") None;
     Event (DatabasesQuery "responses" status_filter) None] =
      Event (BlocksChildrenList "standards") f :: rest ∧
    (rest = [] ∨
     ∃ g calls,
       rest = Event (DatabasesQuery "responses" status_filter) g :: calls ∧
       Forall (λ ev, is_rating_call (request ev) || is_write (request ev) = true) calls).
Proof.
  apply (script_uses_configuration sample_Client sample_OpenAI
           (sample_services sample_json) sample_environ
           "standards" "responses" "secret_n" "secret_o" "secret_n" "secret_o"
           [Reply sample_criteria; Reply (block_list [])] [] (Finished (Ok ()))).
  - vm_compute. reflexivity.
  - reflexivity.
  - vm_compute. reflexivity.
  - reflexivity.
  - vm_compute. reflexivity.
  - vm_compute. reflexivity.
  - vm_compute. reflexivity.
Defined.
